(** * currency-converter: the update pipeline of [parserd] and the
      [/currencies.json] handler of [http-server]

    A shallow embedding of
    - [internal/app/parserd] ([replaceCommasWithDots],
      [getParsedDataFromSource], [updateCurrencyDataInStorages], [Run]);
    - [internal/pkg/http-server] (the handler registered by [New] and
      [getCurrencies]).

    Go values are modelled as follows.
    - A pointer [*T] is an [option T]: [None] is the nil pointer.
    - A byte slice [[]byte] is an [option (list byte)]: [None] is the nil
      slice, [Some []] the empty non-nil slice.  A slice passed to a function
      that writes through it is returned by the model with its new contents.
    - An [error] is an [option string]: [None] is the nil error.
    - A run-time panic (nil dereference, index out of range) is an explicit
      outcome of the execution. *)

From Stdlib Require Import ZArith Strings.Byte String List Lia.
From stdpp Require Import base option list strings gmap.

Open Scope string_scope.
Open Scope nat_scope.
Open Scope list_scope.

(** ** Go run-time outcomes *)

(** The outcome of running a piece of Go code that owns no shared state:
    it returns, it panics, or the model's iteration bound was too small. *)
Inductive Exec (A : Type) : Type :=
| Normal (a : A)
| GoPanic (reason : string)
| NoFuel.
Arguments Normal {A} a.
Arguments GoPanic {A} reason.
Arguments NoFuel {A}.

Definition error : Type := string.

(** [errors.New] *)
Definition errors_New (msg : string) : error := msg.

(** Modelled from the spec: [utils.DecorateError] is not among the sources;
    errors are "wrapped with operation context", so the description is put
    in front of the wrapped error's text. *)
Definition DecorateError (desc : string) (err : error) : error :=
  (desc ++ ": " ++ err)%string.

Definition goslice : Type := option (list byte).

(** [len(data)]: the nil slice has length 0. *)
Definition len (data : goslice) : nat :=
  match data with
  | None => 0
  | Some l => length l
  end.

(** ** [replaceCommasWithDots] (parserd, lines 205-225) *)

Definition START_DATA_INDEX : nat := 100.
(** [','] is byte 0x2c, ['.'] is byte 0x2e. *)
Definition CHAR_COMMA : byte := x2c.
Definition CHAR_DOT : byte := x2e.

(** The loop [for i := START_DATA_INDEX; i < lengthOfData; i++], entered
    with the current [i] and buffer.  [data[i]] on an index outside the
    buffer is Go's index-out-of-range panic.  The index is a natural
    number: it starts at 100 and is incremented only while it is below
    [len(data)], so the Go [int] never wraps. *)
Fixpoint replace_loop (fuel : nat) (lengthOfData i : nat) (data : list byte)
  : Exec (list byte) :=
  if i <? lengthOfData then
    match fuel with
    | O => NoFuel
    | S fuel' =>
        match data !! i with
        | None => GoPanic "index out of range"
        | Some b =>
            let data' :=
              if Byte.eqb b CHAR_COMMA then <[i := CHAR_DOT]> data else data in
            replace_loop fuel' lengthOfData (S i) data'
        end
    end
  else Normal data.

(** The result pairs the buffer as the caller sees it after the call with
    the returned error. *)
Definition replaceCommasWithDots (data : goslice) : Exec (goslice * option error) :=
  match data with
  | None => Normal (None, Some (errors_New "data is empty"))
  | Some l =>
      let lengthOfData := length l in
      match replace_loop lengthOfData lengthOfData START_DATA_INDEX l with
      | Normal l' => Normal (Some l', None)
      | GoPanic r => GoPanic r
      | NoFuel => NoFuel
      end
  end.

(** The byte a buffer holds at index [j], if it has one. *)
Definition byte_at (data : goslice) (j : nat) : option byte :=
  match data with
  | None => None
  | Some l => l !! j
  end.

(** The assignment of the loop body, on one byte. *)
Definition comma_to_dot (b : byte) : byte :=
  if Byte.eqb b CHAR_COMMA then CHAR_DOT else b.

(** What the byte [b] found at index [j] is to become: a comma at or past
    the offset becomes a dot, anything else stays. *)
Definition repaired_byte (j : nat) (b : byte) : byte :=
  if (START_DATA_INDEX <=? j) && Byte.eqb b CHAR_COMMA then CHAR_DOT else b.

(** ** Record model *)

(** Modelled from the spec: package [models] is not among the sources.  The
    fields are the ones the sources read ([Id] in parserd, and the five
    fields printed by [printData]); the value is kept as a fixed-point
    number counted in units of its last decimal place. *)
Record UpdateDatetime : Type := {
  Id : Z;
  UpdateDatetimeText : string
}.

Record Currency : Type := {
  NumCode : string;
  CharCode : string;
  Multiplier : Z;
  Name : string;
  CurrencyValue : Z
}.

Record CurrencyStorage : Type := {
  Currencies : list Currency
}.

(** ** The Read Cache ([mem-storage]) *)

(** Modelled from the spec: package [mem-storage] is not among the sources.
    The cache holds one current timestamp and one current record set; each
    setter replaces the field it is named after, each getter reads it, and
    every one of these calls is a single indivisible access (the cache is
    "concurrency-safe").  [Get] is the pair a state of the cache holds, the
    spec's Snapshot; the sources show no call that reads or stores the pair
    at once. *)
Record MemStorage : Type := {
  updateDatetime : option UpdateDatetime;
  currencyStorage : option CurrencyStorage
}.

Definition Snapshot : Type := (option UpdateDatetime * option CurrencyStorage)%type.

Definition memstorage_New : MemStorage :=
  {| updateDatetime := None; currencyStorage := None |}.

Definition SetUpdateDatetime (v : option UpdateDatetime) (m : MemStorage) : MemStorage :=
  {| updateDatetime := v; currencyStorage := currencyStorage m |}.

Definition SetCurrencyStorage (v : option CurrencyStorage) (m : MemStorage) : MemStorage :=
  {| updateDatetime := updateDatetime m; currencyStorage := v |}.

Definition GetUpdateDatetime (m : MemStorage) : option UpdateDatetime := updateDatetime m.
Definition GetCurrencyStorage (m : MemStorage) : option CurrencyStorage := currencyStorage m.
Definition Get (m : MemStorage) : Snapshot := (updateDatetime m, currencyStorage m).

(** ** A state monad with panics *)

(** Running Go code against a state [St]: it returns a value and the new
    state, or panics leaving the state it had reached, or the model's
    iteration bound was too small. *)
Inductive Outcome (St A : Type) : Type :=
| Ret (a : A) (s : St)
| Panic (reason : string) (s : St)
| Unfinished.
Arguments Ret {St A} a s.
Arguments Panic {St A} reason s.
Arguments Unfinished {St A}.

Definition M (St A : Type) : Type := St -> Outcome St A.

Definition ret {St A : Type} (a : A) : M St A := fun s => Ret a s.

Definition bind {St A B : Type} (m : M St A) (k : A -> M St B) : M St B :=
  fun s =>
    match m s with
    | Ret a s' => k a s'
    | Panic r s' => Panic r s'
    | Unfinished => Unfinished
    end.

Definition panic {St A : Type} (reason : string) : M St A := fun s => Panic reason s.

Definition modify {St : Type} (f : St -> St) : M St unit := fun s => Ret tt (f s).

Definition gets {St A : Type} (f : St -> A) : M St A := fun s => Ret (f s) s.

(** A pure Go function called from stateful code. *)
Definition lift_exec {St A : Type} (e : Exec A) : M St A :=
  fun s =>
    match e with
    | Normal a => Ret a s
    | GoPanic r => Panic r s
    | NoFuel => Unfinished
    end.

Definition nil_dereference : string :=
  "invalid memory address or nil pointer dereference".

(** [p.f] on a pointer [p]: a nil pointer dereference panics. *)
Definition deref {St T : Type} (p : option T) : M St T :=
  match p with
  | Some v => ret v
  | None => panic nil_dereference
  end.

(** [defer d] around [body]: the deferred call runs when the function is
    left, by return or by panic, and a panic goes on afterwards. *)
Definition with_defer {St A : Type} (body : M St A) (d : M St unit) : M St A :=
  fun s =>
    match body s with
    | Ret a s' =>
        match d s' with
        | Ret _ s'' => Ret a s''
        | Panic r s'' => Panic r s''
        | Unfinished => Unfinished
        end
    | Panic r s' =>
        match d s' with
        | Ret _ s'' => Panic r s''
        | Panic r' s'' => Panic r' s''
        | Unfinished => Unfinished
        end
    | Unfinished => Unfinished
    end.

Declare Scope go_scope.
Delimit Scope go_scope with go.
Notation "x <- c1 ;; c2" := (bind c1 (fun x => c2))
  (at level 100, c1 at next level, c2 at level 200, right associativity) : go_scope.
Notation "c1 ;;; c2" := (bind c1 (fun _ => c2))
  (at level 100, c2 at level 200, right associativity) : go_scope.

(** ** The world of [parserd] *)

(** What the orchestrator does to the outside, in the order it does it:
    log lines and calls into its collaborators. *)
Inductive LogLevel : Type := LInfo | LDebug | LError.

Inductive Event : Type :=
| EvLog (level : LogLevel) (msg : string) (err : option error)
| EvConnect
| EvDisconnect
| EvGetLatestUpdateDatetime
| EvIsNeedForUpdateDb (latest : option UpdateDatetime)
| EvFsGetCurrencyData
| EvHttpGetCurrencyData
| EvParse (data : goslice)
| EvInsertUpdateDatetime (datetime : string)
| EvInsertCurrencies (storage : option CurrencyStorage) (id : Z)
| EvGetLatestCurrencies (id : Z)
| EvGetTimeToNextUpdate
| EvGetIsRunning
| EvGoHttpServerRun
| EvSleep (d : Z).

Record World : Type := {
  memStorage : MemStorage;
  trace : list Event
}.

(** The part of [config.Config] read by the orchestrator. *)
Record Config : Type := {
  IsReadCurrencyDataFromFile : bool;
  CurrencySourceFile : string
}.

(** The collaborators ([db-storage], [time-checks], [fs-ops],
    [http-client], [xml-parser], the [http-server] flag, the clock and the
    rendering of a duration) are not among the sources: what each call
    hands back during one iteration of the loop is a parameter.  A result
    [(p, e)] is the Go pair of a pointer or slice and an error; both
    components are free, so a collaborator may report an error together
    with a nil pointer, the way [getParsedDataFromSource] itself does.
    A duration is a number of nanoseconds, and [duration_String d] is the
    text of [d.Round(time.Second).String()]. *)
Record Collaborators : Type := {
  time_Now : string;
  db_Connect : option error;
  db_Disconnect : option error;
  db_GetLatestUpdateDatetime : option UpdateDatetime * option error;
  tc_IsNeedForUpdateDb : option UpdateDatetime -> bool * option error;
  fs_GetCurrencyData : goslice * option error;
  hc_GetCurrencyData : goslice * option error;
  xml_Parse : goslice -> option CurrencyStorage * option error;
  db_InsertUpdateDatetime : string -> option UpdateDatetime * option error;
  db_InsertCurrencies : option CurrencyStorage -> Z -> option error;
  db_GetLatestCurrencies : Z -> option CurrencyStorage * option error;
  tc_GetTimeToNextUpdate : option Z * option error;
  srv_GetIsRunning : bool;
  duration_String : Z -> string
}.

Definition emit (e : Event) : M World unit :=
  modify (fun w => {| memStorage := memStorage w; trace := trace w ++ [e] |}).

(** A call into a collaborator: the call is recorded, its result comes
    from the parameters. *)
Definition call {A : Type} (e : Event) (result : A) : M World A :=
  bind (emit e) (fun _ => ret result).

(** [fastlog] is an external library.  Modelled from the spec: "every
    collaborator error is logged with context and the cycle proceeds"; a log
    call records its line and returns to the caller. *)
Definition fastlog_Info (msg : string) : M World unit := emit (EvLog LInfo msg None).
Definition fastlog_Debug (msg : string) : M World unit := emit (EvLog LDebug msg None).
Definition fastlog_Error (desc : string) (err : error) : M World unit :=
  emit (EvLog LError desc (Some err)).

(** [if err != nil { fastlog.Error(desc, err) }] *)
Definition log_if_err (desc : string) (err : option error) : M World unit :=
  match err with
  | Some e => fastlog_Error desc e
  | None => ret tt
  end.

(** The two stores of the publish step (parserd, lines 160-161). *)
Inductive CacheOp : Type :=
| OpSetUpdateDatetime (v : option UpdateDatetime)
| OpSetCurrencyStorage (v : option CurrencyStorage).

Definition apply_op (op : CacheOp) (m : MemStorage) : MemStorage :=
  match op with
  | OpSetUpdateDatetime v => SetUpdateDatetime v m
  | OpSetCurrencyStorage v => SetCurrencyStorage v m
  end.

Definition publish (latestUpdateDatetime : option UpdateDatetime)
    (latestCurrencyStorage : option CurrencyStorage) : list CacheOp :=
  [OpSetUpdateDatetime latestUpdateDatetime; OpSetCurrencyStorage latestCurrencyStorage].

Definition mem_op (op : CacheOp) : M World unit :=
  modify (fun w => {| memStorage := apply_op op (memStorage w); trace := trace w |}).

Fixpoint mem_ops (ops : list CacheOp) : M World unit :=
  match ops with
  | [] => ret tt
  | op :: rest => bind (mem_op op) (fun _ => mem_ops rest)
  end.

(** ** [parserd] *)

Section Parserd.
Variable config : Config.
Variable c : Collaborators.

Local Open Scope go_scope.

(** The retrieval branch of [getParsedDataFromSource] (lines 174-188):
    [inl] is the retrieved buffer, [inr] the error of the early return. *)
Definition retrieve : M World (goslice + error) :=
  if IsReadCurrencyDataFromFile config then
    fastlog_Debug "getting data from local file..." ;;;
    r <- call EvFsGetCurrencyData (fs_GetCurrencyData c) ;;
    match snd r with
    | Some err => ret (inr (DecorateError "cannot get currencies from file" err))
    | None => ret (inl (fst r))
    end
  else
    fastlog_Debug "getting data from web..." ;;;
    r <- call EvHttpGetCurrencyData (hc_GetCurrencyData c) ;;
    match snd r with
    | Some err => ret (inr (DecorateError "cannot get curencies from web" err))
    | None => ret (inl (fst r))
    end.

(** Lines 166-203. *)
Definition getParsedDataFromSource : M World (option CurrencyStorage * option error) :=
  fastlog_Info "getting new data..." ;;;
  got <- retrieve ;;
  match got with
  | inr err => ret (None, Some err)
  | inl currencyData =>
      r <- lift_exec (replaceCommasWithDots currencyData) ;;
      match snd r with
      | Some err => ret (None, Some (DecorateError "cannot replace commas in data" err))
      | None =>
          fastlog_Info "parsing data..." ;;;
          p <- call (EvParse (fst r)) (xml_Parse c (fst r)) ;;
          match snd p with
          | Some err => ret (None, Some (DecorateError "cannot parse data" err))
          | None => ret (fst p, None)
          end
      end
  end.

(** The branch on [isNeedUpdate] (lines 133-158); it yields the values of
    [latestUpdateDatetime] and [latestCurrencyStorage] at line 160. *)
Definition refresh (latestUpdateDatetime : option UpdateDatetime) (isNeedUpdate : bool)
  : M World (option UpdateDatetime * option CurrencyStorage) :=
  if isNeedUpdate then
    fastlog_Info "data is outdated" ;;;
    fastlog_Info "initializing update process..." ;;;
    parsed <- getParsedDataFromSource ;;
    log_if_err "cannot get parsed data from source" (snd parsed) ;;;
    fastlog_Info "saving data..." ;;;
    inserted <- call (EvInsertUpdateDatetime (time_Now c))
                     (db_InsertUpdateDatetime c (time_Now c)) ;;
    log_if_err "cannot insert datetime into db" (snd inserted) ;;;
    u <- deref (fst inserted) ;;
    err <- call (EvInsertCurrencies (fst parsed) (Id u))
                (db_InsertCurrencies c (fst parsed) (Id u)) ;;
    log_if_err "cannot insert currencies into db" err ;;;
    ret (fst inserted, fst parsed)
  else
    u <- deref latestUpdateDatetime ;;
    stored <- call (EvGetLatestCurrencies (Id u)) (db_GetLatestCurrencies c (Id u)) ;;
    log_if_err "cannot get currencies from db" (snd stored) ;;;
    ret (latestUpdateDatetime, fst stored).

(** Lines 101-164.  [currentDatetime] is [time_Now c]. *)
Definition updateCurrencyDataInStorages : M World unit :=
  with_defer
    (err <- call EvConnect (db_Connect c) ;;
     log_if_err "cannot connect to db to do data update" err ;;;
     fastlog_Info "checking latest update time..." ;;;
     latest <- call EvGetLatestUpdateDatetime (db_GetLatestUpdateDatetime c) ;;
     log_if_err "cannot get current update datetime" (snd latest) ;;;
     need <- call (EvIsNeedForUpdateDb (fst latest)) (tc_IsNeedForUpdateDb c (fst latest)) ;;
     log_if_err "cannot check is need update for db or not" (snd need) ;;;
     vars <- refresh (fst latest) (fst need) ;;
     mem_ops (publish (fst vars) (snd vars)) ;;;
     fastlog_Info "data is now up to date")
    (err <- call EvDisconnect (db_Disconnect c) ;;
     log_if_err "cannot disconnect from db to do data update" err).

(** One turn of the loop of [Run] (lines 78-97).  The goroutine that runs
    the server is recorded as started; what it does afterwards is not part
    of the loop. *)
Definition Run_iteration : M World unit :=
  updateCurrencyDataInStorages ;;;
  next <- call EvGetTimeToNextUpdate (tc_GetTimeToNextUpdate c) ;;
  log_if_err "cannot get time to next update" (snd next) ;;;
  d <- deref (fst next) ;;
  fastlog_Info ("next update will occur after " ++ duration_String c d)%string ;;;
  running <- call EvGetIsRunning (srv_GetIsRunning c) ;;
  (if negb running then emit EvGoHttpServerRun else ret tt) ;;;
  emit (EvSleep d).

End Parserd.

(** The first [n] turns of the loop of [Run], the turn numbered [k] and
    the following ones; [env k] is what the collaborators hand back during
    turn [k].  The loop has no exit: [Run] itself never returns. *)
Fixpoint Run_turns (config : Config) (env : nat -> Collaborators) (n k : nat)
  : M World unit :=
  match n with
  | O => ret tt
  | S n' => bind (Run_iteration config (env k)) (fun _ => Run_turns config env n' (S k))
  end.

Definition World_New : World := {| memStorage := memstorage_New; trace := [] |}.

(** ** Readers running beside the publish step *)

(** What one read of the cache returned.  The sources show one call per
    field and no call on the pair: the two setters of the orchestrator
    (parserd, lines 160-161) and the [GetCurrencyStorage] of the handler
    (http-server, line 63); the read of the timestamp is the same call for
    the other field. *)
Inductive FieldRead : Type :=
| ReadUpdateDatetime (v : option UpdateDatetime)
| ReadCurrencyStorage (v : option CurrencyStorage).

(** The orchestrator still has [pending] stores to do; readers have made
    the reads [observed], oldest first. *)
Record Interleaving : Type := {
  cache : MemStorage;
  pending : list CacheOp;
  observed : list FieldRead
}.

(** One indivisible access to one field of the cache: the orchestrator's
    next store, or a reader's read of the timestamp or of the records. *)
Inductive step : Interleaving -> Interleaving -> Prop :=
| step_store m op rest obs :
    step {| cache := m; pending := op :: rest; observed := obs |}
         {| cache := apply_op op m; pending := rest; observed := obs |}
| step_get_timestamp m ops obs :
    step {| cache := m; pending := ops; observed := obs |}
         {| cache := m; pending := ops;
            observed := obs ++ [ReadUpdateDatetime (GetUpdateDatetime m)] |}
| step_get_records m ops obs :
    step {| cache := m; pending := ops; observed := obs |}
         {| cache := m; pending := ops;
            observed := obs ++ [ReadCurrencyStorage (GetCurrencyStorage m)] |}.

(** The timestamps, and the record sets, that the reads returned, in the
    order of the reads. *)
Fixpoint timestamps_read (obs : list FieldRead) : list (option UpdateDatetime) :=
  match obs with
  | [] => []
  | ReadUpdateDatetime v :: t => v :: timestamps_read t
  | ReadCurrencyStorage _ :: t => timestamps_read t
  end.

Fixpoint records_read (obs : list FieldRead) : list (option CurrencyStorage) :=
  match obs with
  | [] => []
  | ReadUpdateDatetime _ :: t => records_read t
  | ReadCurrencyStorage v :: t => v :: records_read t
  end.

Definition publishing (m : MemStorage) (u : option UpdateDatetime)
    (s : option CurrencyStorage) : Interleaving :=
  {| cache := m; pending := publish u s; observed := [] |}.

Definition fully_previous (m : MemStorage) (snap : Snapshot) : Prop := snap = Get m.
Definition fully_new (u : option UpdateDatetime) (s : option CurrencyStorage)
    (snap : Snapshot) : Prop := snap = (u, s).

(** ** [http-server] *)

Module HttpServer.

(** [net/http]'s [ResponseWriter] as the handler holds it while it runs.
    [Header()] is the header map.  [WriteHeader] records the status code
    together with the header map as it is at that moment, once: nothing is
    sent by the call.  [Write] records status 200 first when no status has
    been recorded, and hands the bytes on; when it fails, the part of the
    bytes that was taken before the failure ([io.Writer]'s count, which
    [getCurrencies] drops) is in the body all the same.  What reaches the
    client is decided when the handler is left: see [client_receives]. *)
Record ResponseWriter : Type := {
  header : gmap string string;
  wroteHeader : option (Z * gmap string string);
  body : list byte
}.

Definition NewResponse : ResponseWriter :=
  {| header := ∅; wroteHeader := None; body := [] |}.

Definition Header_Set (k v : string) (w : ResponseWriter) : ResponseWriter :=
  {| header := <[k := v]> (header w); wroteHeader := wroteHeader w; body := body w |}.

Definition WriteHeader (code : Z) (w : ResponseWriter) : ResponseWriter :=
  match wroteHeader w with
  | Some _ => w
  | None => {| header := header w; wroteHeader := Some (code, header w); body := body w |}
  end.

Definition StatusOK : Z := 200.

(** [failure] is the error of the write and [taken] the number of bytes
    that were taken when it failed. *)
Definition Write (data : list byte) (failure : option error) (taken : nat)
    (w : ResponseWriter) : ResponseWriter * option error :=
  let w' := WriteHeader StatusOK w in
  match failure with
  | Some err =>
      ({| header := header w'; wroteHeader := wroteHeader w';
          body := body w' ++ take taken data |}, Some err)
  | None =>
      ({| header := header w'; wroteHeader := wroteHeader w';
          body := body w' ++ data |}, None)
  end.

Inductive HEvent : Type :=
| HHeaderSet (k v : string)
| HWriteHeader (code : Z)
| HGetCurrencyStorage
| HMarshal (v : list Currency)
| HWrite (data : goslice).

Record Request : Type := {
  response : ResponseWriter;
  calls : list HEvent
}.

(** What the handler meets while serving one request: the Read Cache as
    it is, the result of [json.Marshal], whether the connection takes the
    body, and how much of it was taken when it does not. *)
Record Serving : Type := {
  cached : MemStorage;
  json_Marshal : list Currency -> goslice * option error;
  conn_Write : list byte -> option error;
  conn_Taken : list byte -> nat
}.

Definition record (e : HEvent) : M Request unit :=
  modify (fun r => {| response := response r; calls := calls r ++ [e] |}).

Definition on_response (f : ResponseWriter -> ResponseWriter) : M Request unit :=
  modify (fun r => {| response := f (response r); calls := calls r |}).

Section Handler.
Variable sv : Serving.
Local Open Scope go_scope.

Definition w_Write (data : goslice) : M Request (option error) :=
  record (HWrite data) ;;;
  r <- gets (fun r => Write (default [] data) (conn_Write sv (default [] data))
                       (conn_Taken sv (default [] data)) (response r)) ;;
  on_response (fun _ => fst r) ;;;
  ret (snd r).

(** Lines 62-76. *)
Definition getCurrencies : M Request (option error) :=
  currencyStorage <- (record HGetCurrencyStorage ;;; ret (GetCurrencyStorage (cached sv))) ;;
  cs <- deref currencyStorage ;;
  m <- (record (HMarshal (Currencies cs)) ;;; ret (json_Marshal sv (Currencies cs))) ;;
  match snd m with
  | Some err => ret (Some (DecorateError "cannot marshall curencies to json" err))
  | None =>
      err <- w_Write (fst m) ;;
      match err with
      | Some err => ret (Some (DecorateError "cannot write data to http reponse" err))
      | None => ret None
      end
  end.

(** The handler of [/currencies.json] (lines 34-38); the value returned
    by [getCurrencies] is dropped. *)
Definition handler : M Request unit :=
  record (HHeaderSet "Content-Type" "application/json") ;;;
  on_response (Header_Set "Content-Type" "application/json") ;;;
  record (HWriteHeader StatusOK) ;;;
  on_response (WriteHeader StatusOK) ;;;
  _ <- getCurrencies ;;
  ret tt.
End Handler.

Definition NewRequest : Request := {| response := NewResponse; calls := [] |}.

(** The status the handler has recorded for the request. *)
Definition status (r : Request) : option Z := fst <$> wroteHeader (response r).

(** A response as the server sends it. *)
Record Response : Type := {
  code : Z;
  fields : gmap string string;
  payload : list byte
}.

(** What the server sends for a request once the handler is left, as the
    server of [net/http] does.  When the handler returns, the response is
    finished: the recorded status (200 when none was recorded) goes out
    with the header recorded beside it and the body.  When the handler
    panics, the server recovers, closes the connection and sends nothing of
    what was recorded (this handler can only panic before its first
    [Write]). *)
Definition client_receives (o : Outcome Request unit) : option Response :=
  match o with
  | Ret _ r =>
      let w := WriteHeader StatusOK (response r) in
      match wroteHeader w with
      | Some (c, h) => Some {| code := c; fields := h; payload := body w |}
      | None => None
      end
  | Panic _ _ => None
  | Unfinished => None
  end.



End HttpServer.

(** ** Observations on a run *)

(** The world [w] after the further events [t]. *)
Definition extend (w : World) (t : list Event) : World :=
  {| memStorage := memStorage w; trace := trace w ++ t |}.

(** The world a run stops in, by return or by panic. *)
Definition final_world {A : Type} (o : Outcome World A) : option World :=
  match o with
  | Ret _ w => Some w
  | Panic _ w => Some w
  | Unfinished => None
  end.

Definition returned {A : Type} (o : Outcome World A) : option A :=
  match o with
  | Ret a _ => Some a
  | _ => None
  end.

(** What the Source Fetcher hands back under the collaborators [c]. *)
Definition fetched (config : Config) (c : Collaborators)
  : option (option CurrencyStorage * option error) :=
  returned (getParsedDataFromSource config c World_New).

(** The Freshness Evaluator reports stale in the cycle run under [c]. *)
Definition stale (c : Collaborators) : bool :=
  fst (tc_IsNeedForUpdateDb c (fst (db_GetLatestUpdateDatetime c))).

(** The events of [if err != nil { fastlog.Error(desc, err) }]. *)
Definition error_line (desc : string) (err : option error) : list Event :=
  match err with
  | Some e => [EvLog LError desc (Some e)]
  | None => []
  end.

Fixpoint count_events (p : Event -> bool) (t : list Event) : nat :=
  match t with
  | [] => 0
  | e :: t' => (if p e then 1 else 0) + count_events p t'
  end.

Definition is_file_read (e : Event) : bool :=
  match e with EvFsGetCurrencyData => true | _ => false end.

Definition is_network_read (e : Event) : bool :=
  match e with EvHttpGetCurrencyData => true | _ => false end.

Definition is_durable_insert (e : Event) : bool :=
  match e with
  | EvInsertUpdateDatetime _ | EvInsertCurrencies _ _ => true
  | _ => false
  end.

(** The events of a cycle before the branch on [isNeedUpdate] (lines
    110-131) and after the publish step (line 163 and the deferred
    disconnect). *)
Definition cycle_head (c : Collaborators) : list Event :=
  [EvConnect]
  ++ error_line "cannot connect to db to do data update" (db_Connect c)
  ++ [EvLog LInfo "checking latest update time..." None; EvGetLatestUpdateDatetime]
  ++ error_line "cannot get current update datetime" (snd (db_GetLatestUpdateDatetime c))
  ++ [EvIsNeedForUpdateDb (fst (db_GetLatestUpdateDatetime c))]
  ++ error_line "cannot check is need update for db or not"
       (snd (tc_IsNeedForUpdateDb c (fst (db_GetLatestUpdateDatetime c)))).

Definition cycle_deferred (c : Collaborators) : list Event :=
  [EvDisconnect]
  ++ error_line "cannot disconnect from db to do data update" (db_Disconnect c).

Definition cycle_tail (c : Collaborators) : list Event :=
  [EvLog LInfo "data is now up to date" None] ++ cycle_deferred c.

(** Every pointer the orchestrator dereferences in a turn under [c] is
    non-nil: the timestamp of the branch taken (lines 149 and 154) and the
    duration (line 86). *)
Definition hands_back_pointers (c : Collaborators) : bool :=
  (if stale c
   then bool_decide (is_Some (fst (db_InsertUpdateDatetime c (time_Now c))))
   else bool_decide (is_Some (fst (db_GetLatestUpdateDatetime c))))
  && bool_decide (is_Some (fst (tc_GetTimeToNextUpdate c))).

(** ** Sample runs *)

Definition stamp_before : UpdateDatetime :=
  {| Id := 1; UpdateDatetimeText := "2023-05-01T12:00:00+03:00" |}.

Definition usd : Currency :=
  {| NumCode := "840"; CharCode := "USD"; Multiplier := 1;
     Name := "US Dollar"; CurrencyValue := 801234 |}.

Definition stored_before : CurrencyStorage := {| Currencies := [usd] |}.

(** The server is serving the snapshot of update 1. *)
Definition serving_before : World :=
  {| memStorage := {| updateDatetime := Some stamp_before;
                      currencyStorage := Some stored_before |};
     trace := [] |}.

Definition sample_config : Config :=
  {| IsReadCurrencyDataFromFile := false; CurrencySourceFile := "currencies.xml" |}.

(** Collaborators that find the data stale and work, but for the network
    read and the timestamp insert, which are given. *)
Definition sample (network : goslice * option error)
    (insert : string -> option UpdateDatetime * option error) : Collaborators :=
  {| time_Now := "2023-05-02T12:00:00+03:00";
     db_Connect := None;
     db_Disconnect := None;
     db_GetLatestUpdateDatetime := (Some stamp_before, None);
     tc_IsNeedForUpdateDb := fun _ => (true, None);
     fs_GetCurrencyData := (Some [], None);
     hc_GetCurrencyData := network;
     xml_Parse := fun _ => (Some stored_before, None);
     db_InsertUpdateDatetime := insert;
     db_InsertCurrencies := fun _ _ => None;
     db_GetLatestCurrencies := fun _ => (Some stored_before, None);
     tc_GetTimeToNextUpdate := (Some 3600000000000%Z, None);
     srv_GetIsRunning := false;
     duration_String := fun _ => "1h0m0s" |}.

Definition insert_ok (datetime : string) : option UpdateDatetime * option error :=
  (Some {| Id := 2; UpdateDatetimeText := datetime |}, None).

(** The network read fails. *)
Definition failing_fetch : Collaborators :=
  sample (None, Some "connection refused") insert_ok.

(** The timestamp insert fails, handing back the nil pointer with its
    error. *)
Definition failing_insert : Collaborators :=
  sample (Some [x3c; x2f; x3e], None) (fun _ => (None, Some "insert failed")).

Definition stamp_after : UpdateDatetime :=
  {| Id := 2; UpdateDatetimeText := "2023-05-02T12:00:00+03:00" |}.

Definition usd_after : Currency :=
  {| NumCode := "840"; CharCode := "USD"; Multiplier := 1;
     Name := "US Dollar"; CurrencyValue := 795500 |}.

Definition stored_after : CurrencyStorage := {| Currencies := [usd_after] |}.

(** A reader reads both fields between the two stores of the publish
    step. *)
Definition torn_read : Interleaving :=
  {| cache := {| updateDatetime := Some stamp_after;
                 currencyStorage := Some stored_before |};
     pending := [OpSetCurrencyStorage (Some stored_after)];
     observed := [ReadUpdateDatetime (Some stamp_after);
                  ReadCurrencyStorage (Some stored_before)] |}.

(** A reader reads the timestamp before the publish step and the records
    after it. *)
Definition crossed_read : Interleaving :=
  {| cache := {| updateDatetime := Some stamp_after;
                 currencyStorage := Some stored_after |};
     pending := [];
     observed := [ReadUpdateDatetime (Some stamp_before);
                  ReadCurrencyStorage (Some stored_after)] |}.

(** A read returned the value its field had before the publish step
    started on the cache [m], or the value the step stores there. *)
Definition previous_or_new (m : MemStorage) (u : option UpdateDatetime)
    (s : option CurrencyStorage) (o : FieldRead) : Prop :=
  match o with
  | ReadUpdateDatetime v => v = updateDatetime m \/ v = u
  | ReadCurrencyStorage v => v = currencyStorage m \/ v = s
  end.

(** What holds at every moment of a publish step started on the cache
    [m]: the stores still to do and the cache go together, and every read
    made so far returned the previous or the new value of its field. *)
Definition publish_invariant (m : MemStorage) (u : option UpdateDatetime)
    (s : option CurrencyStorage) (i : Interleaving) : Prop :=
  ((pending i = publish u s /\ cache i = m)
   \/ (pending i = [OpSetCurrencyStorage s] /\ cache i = SetUpdateDatetime u m)
   \/ (pending i = [] /\ cache i = {| updateDatetime := u; currencyStorage := s |}))
  /\ Forall (previous_or_new m u s) (observed i).

(** ** [SaveCurrencyDataToFile] (parserd, lines 57-69) *)

(** What [SaveCurrencyDataToFile] does to the outside: log lines, the
    download and the write of the file. *)
Inductive SaveEvent : Type :=
| SvLog (level : LogLevel) (msg : string) (err : option error)
| SvHttpGetCurrencyData
| SvOverwriteCurrencyDataFile (data : goslice).

Definition sv_record (e : SaveEvent) : M (list SaveEvent) unit :=
  modify (fun t => t ++ [e]).

(** [overwrite] is what [fsOps.OverwriteCurrencyDataFile] hands back for a
    buffer; the download is [hc_GetCurrencyData c].  The log calls are
    [fastlog]'s, as above. *)
Definition SaveCurrencyDataToFile (config : Config) (c : Collaborators)
    (overwrite : goslice -> option error) : M (list SaveEvent) unit :=
  (r <- (sv_record SvHttpGetCurrencyData ;;; ret (hc_GetCurrencyData c)) ;;
   match snd r with
   | Some err => sv_record (SvLog LError "cannot get currencies from web" (Some err))
   | None => ret tt
   end ;;;
   err <- (sv_record (SvOverwriteCurrencyDataFile (fst r)) ;;; ret (overwrite (fst r))) ;;
   match err with
   | Some err => sv_record (SvLog LError "cannot write currencies to file" (Some err))
   | None => ret tt
   end ;;;
   sv_record (SvLog LInfo ("currency data saved in file: " ++ CurrencySourceFile config)%string
                None))%go.

(** ** The listener of [http-server] ([New], [GetIsRunning], [Run]) *)

Module Listener.

(** The part of [config.Config] read by [New]. *)
Record ServerConfig : Type := {
  HttpServerListenIp : string;
  HttpServerListenPort : string
}.

(** The [HttpServer] struct without its handler: the address of the
    embedded [http.Server] and the flag.  [log] and [listens] are what the
    server has written to the log and the values the flag had each time
    [ListenAndServe] was entered. *)
Record Server : Type := {
  Addr : string;
  isRunning : bool;
  log : list string;
  listens : list bool
}.

Definition pattern : string := "/currencies.json".

(** Lines 20-41: the address is the IP, a colon and the port; a struct
    literal leaves [isRunning] at its zero value. *)
Definition New (cfg : ServerConfig) : Server :=
  {| Addr := (HttpServerListenIp cfg ++ ":" ++ HttpServerListenPort cfg)%string;
     isRunning := false;
     log := [];
     listens := [] |}.

Definition GetIsRunning (s : Server) : bool := isRunning s.

Definition set_running (b : bool) : M Server unit :=
  modify (fun s => {| Addr := Addr s; isRunning := b; log := log s; listens := listens s |}).

Definition info (msg : string) : M Server unit :=
  modify (fun s => {| Addr := Addr s; isRunning := isRunning s;
                      log := log s ++ [msg]; listens := listens s |}).

(** [s.server.ListenAndServe()]: it serves until it fails and then hands
    [served] back; the flag it was entered under is kept. *)
Definition ListenAndServe (served : option error) : M Server (option error) :=
  bind (modify (fun s => {| Addr := Addr s; isRunning := isRunning s;
                            log := log s; listens := listens s ++ [isRunning s] |}))
       (fun _ => ret served).

(** Lines 47-60. *)
Definition Run (served : option error) : M Server (option error) :=
  (addr <- gets Addr ;;
   info ("http server has started at address " ++ addr)%string ;;;
   set_running true ;;;
   err <- ListenAndServe served ;;
   match err with
   | Some err =>
       set_running false ;;;
       ret (Some (DecorateError "cannot run http listener" err))
   | None => ret None
   end)%go.

End Listener.

(** ** Further observations *)

(** The buffer read by the strategy the configuration selects. *)
Definition source_read (config : Config) (c : Collaborators) : goslice * option error :=
  if IsReadCurrencyDataFromFile config then fs_GetCurrencyData c else hc_GetCurrencyData c.

(** The description put in front of a retrieval error. *)
Definition retrieval_context (config : Config) : string :=
  if IsReadCurrencyDataFromFile config
  then "cannot get currencies from file"
  else "cannot get curencies from web".

Definition is_connect (e : Event) : bool :=
  match e with EvConnect => true | _ => false end.

Definition is_disconnect (e : Event) : bool :=
  match e with EvDisconnect => true | _ => false end.

Definition is_parse (e : Event) : bool :=
  match e with EvParse _ => true | _ => false end.

(** The events the Source Fetcher can produce. *)
Definition fetcher_event (e : Event) : bool :=
  match e with
  | EvLog _ _ _ | EvFsGetCurrencyData | EvHttpGetCurrencyData | EvParse _ => true
  | _ => false
  end.

(** The pointer dereferenced by the branch a cycle under [c] takes. *)
Definition branch_pointer (c : Collaborators) : option UpdateDatetime :=
  if stale c
  then fst (db_InsertUpdateDatetime c (time_Now c))
  else fst (db_GetLatestUpdateDatetime c).

(** Collaborators of a cycle that finds its data fresh, with a database
    that cannot be reached: every database call reports an error, the
    reads handing back what is given. *)
Definition unreachable_db (latest : option UpdateDatetime)
    (next : option Z) : Collaborators :=
  {| time_Now := "2023-05-02T12:00:00+03:00";
     db_Connect := Some "connection refused";
     db_Disconnect := Some "not connected";
     db_GetLatestUpdateDatetime := (latest, Some "not connected");
     tc_IsNeedForUpdateDb := fun _ => (false, None);
     fs_GetCurrencyData := (Some [], None);
     hc_GetCurrencyData := (Some [], None);
     xml_Parse := fun _ => (Some stored_before, None);
     db_InsertUpdateDatetime := fun _ => (None, Some "not connected");
     db_InsertCurrencies := fun _ _ => Some "not connected";
     db_GetLatestCurrencies := fun _ => (None, Some "not connected");
     tc_GetTimeToNextUpdate := (next, None);
     srv_GetIsRunning := true;
     duration_String := fun _ => "1h0m0s" |}.

(** The events of a cycle between its head and the deferred disconnect,
    when the Source Fetcher hands back [r] after the events [fnew]: the
    branch taken, up to the dereference when the pointer is nil, and the
    last log line when it is not. *)
Definition cycle_events (c : Collaborators)
    (r : option CurrencyStorage * option error) (fnew : list Event) : list Event :=
  if stale c then
    [EvLog LInfo "data is outdated" None;
     EvLog LInfo "initializing update process..." None]
    ++ fnew
    ++ error_line "cannot get parsed data from source" (snd r)
    ++ [EvLog LInfo "saving data..." None; EvInsertUpdateDatetime (time_Now c)]
    ++ error_line "cannot insert datetime into db"
         (snd (db_InsertUpdateDatetime c (time_Now c)))
    ++ match fst (db_InsertUpdateDatetime c (time_Now c)) with
       | Some u =>
           [EvInsertCurrencies (fst r) (Id u)]
           ++ error_line "cannot insert currencies into db"
                (db_InsertCurrencies c (fst r) (Id u))
           ++ [EvLog LInfo "data is now up to date" None]
       | None => []
       end
  else
    match fst (db_GetLatestUpdateDatetime c) with
    | Some u =>
        [EvGetLatestCurrencies (Id u)]
        ++ error_line "cannot get currencies from db" (snd (db_GetLatestCurrencies c (Id u)))
        ++ [EvLog LInfo "data is now up to date" None]
    | None => []
    end.

(** The Read Cache a cycle leaves, from the cache [m] it found. *)
Definition cycle_cache (c : Collaborators)
    (r : option CurrencyStorage * option error) (m : MemStorage) : MemStorage :=
  match branch_pointer c with
  | Some u =>
      {| updateDatetime := Some u;
         currencyStorage :=
           if stale c then fst r else fst (db_GetLatestCurrencies c (Id u)) |}
  | None => m
  end.

(** How a cycle under [c] ends. *)
Definition cycle_end (c : Collaborators) (w : World) : Outcome World unit :=
  match branch_pointer c with
  | Some _ => Ret tt w
  | None => Panic nil_dereference w
  end.

(** Collaborators that work; the network hands back 104 commas. *)
Definition healthy : Collaborators :=
  sample (Some (replicate 104 CHAR_COMMA), None) insert_ok.

(** The network hands back the nil slice and no error. *)
Definition empty_handed : Collaborators := sample (None, None) insert_ok.

(** A handler serving update 1 over a connection that works. *)
Definition serving_update_1 : HttpServer.Serving :=
  {| HttpServer.cached := memStorage serving_before;
     HttpServer.json_Marshal := fun _ => (Some [x5b; x5d], None);
     HttpServer.conn_Write := fun _ => None;
     HttpServer.conn_Taken := fun _ => 0 |}.

(** A handler serving before the first cycle has published. *)
Definition serving_at_startup : HttpServer.Serving :=
  {| HttpServer.cached := memstorage_New;
     HttpServer.json_Marshal := fun _ => (Some [x5b; x5d], None);
     HttpServer.conn_Write := fun _ => None;
     HttpServer.conn_Taken := fun _ => 0 |}.

(** Marshalling fails; the connection is lost. *)
Definition serving_unmarshallable : HttpServer.Serving :=
  {| HttpServer.cached := memStorage serving_before;
     HttpServer.json_Marshal := fun _ => (None, Some "unsupported value");
     HttpServer.conn_Write := fun _ => None;
     HttpServer.conn_Taken := fun _ => 0 |}.

Definition serving_lost_connection : HttpServer.Serving :=
  {| HttpServer.cached := memStorage serving_before;
     HttpServer.json_Marshal := fun _ => (Some [x5b; x5d], None);
     HttpServer.conn_Write := fun _ => Some "broken pipe";
     HttpServer.conn_Taken := fun _ => 1 |}.

Definition is_sleep (e : Event) : bool :=
  match e with EvSleep _ => true | _ => false end.

Definition is_server_start (e : Event) : bool :=
  match e with EvGoHttpServerRun => true | _ => false end.

(** The reads of each field come in order, the previous value first and
    then the new one; the stores still to do say how far the publish step
    has come. *)
Definition publish_phases (m : MemStorage) (u : option UpdateDatetime)
    (s : option CurrencyStorage) (i : Interleaving) : Prop :=
  exists a b c d,
    timestamps_read (observed i) = replicate a (updateDatetime m) ++ replicate b u
    /\ records_read (observed i) = replicate c (currencyStorage m) ++ replicate d s
    /\ ((pending i = publish u s /\ cache i = m /\ b = 0 /\ d = 0)
        \/ (pending i = [OpSetCurrencyStorage s] /\ cache i = SetUpdateDatetime u m /\ d = 0)
        \/ (pending i = [] /\ cache i = {| updateDatetime := u; currencyStorage := s |})).

(** Both stores of the publish step done, the records read after each. *)
Definition published : Interleaving :=
  {| cache := {| updateDatetime := Some stamp_after;
                 currencyStorage := Some stored_after |};
     pending := [];
     observed := [ReadCurrencyStorage (Some stored_before);
                  ReadCurrencyStorage (Some stored_after)] |}.

(** * Properties *)

(** ** The Feed Normalizer *)

Lemma byte_eqb_eq (a b : byte) : Byte.eqb a b = true <-> a = b.
Proof.
  split.
  - apply Byte.byte_dec_bl.
  - apply Byte.byte_dec_lb.
Qed.

Lemma comma_to_dot_idem (b : byte) : comma_to_dot (comma_to_dot b) = comma_to_dot b.
Proof.
  unfold comma_to_dot.
  destruct (Byte.eqb b CHAR_COMMA) eqn:E; [reflexivity | now rewrite E].
Qed.

(** One pass of the loop body over index [i]. *)
Lemma replace_at_lookup (data : list byte) (i j : nat) (b : byte) :
  data !! i = Some b ->
  (if Byte.eqb b CHAR_COMMA then <[i := CHAR_DOT]> data else data) !! j
  = if decide (i = j) then Some (comma_to_dot b) else data !! j.
Proof.
  intros Hb. unfold comma_to_dot.
  destruct (decide (i = j)) as [-> | Hne].
  - destruct (Byte.eqb b CHAR_COMMA); [| exact Hb].
    apply list_lookup_insert_eq. eapply lookup_lt_Some, Hb.
  - destruct (Byte.eqb b CHAR_COMMA); [| reflexivity].
    now apply list_lookup_insert_ne.
Qed.

(** The loop finishes on every buffer within [lengthOfData - i] turns,
    never reads outside the buffer, keeps the length, and rewrites exactly
    the commas from [i] on. *)
Lemma replace_loop_spec (fuel : nat) :
  forall (i : nat) (data : list byte),
    length data - i <= fuel ->
    exists data',
      replace_loop fuel (length data) i data = Normal data'
      /\ length data' = length data
      /\ forall j, data' !! j
                   = if decide (i <= j) then comma_to_dot <$> data !! j else data !! j.
Proof.
  induction fuel as [| fuel IH]; intros i data Hfuel.
  - exists data. simpl.
    destruct (Nat.ltb_spec i (length data)); [lia |].
    split; [reflexivity | split; [reflexivity |]]. intros j.
    destruct (decide (i <= j)); [| reflexivity].
    rewrite (lookup_ge_None_2 data j) by lia. reflexivity.
  - simpl. destruct (Nat.ltb_spec i (length data)) as [Hlt | Hge].
    + destruct (lookup_lt_is_Some_2 data i Hlt) as [b Hb]. rewrite Hb.
      set (data1 := if Byte.eqb b CHAR_COMMA then <[i := CHAR_DOT]> data else data).
      assert (Hlen : length data1 = length data).
      { unfold data1. destruct (Byte.eqb b CHAR_COMMA); [apply length_insert | reflexivity]. }
      destruct (IH (S i) data1) as (data' & Hrun & Hlen' & Hat); [lia |].
      exists data'. rewrite <- Hlen. split; [exact Hrun |].
      split; [lia |]. intros j. rewrite Hat.
      unfold data1. rewrite (replace_at_lookup data i j b Hb).
      destruct (decide (S i <= j)), (decide (i <= j)), (decide (i = j));
        try lia; subst; try reflexivity.
      rewrite Hb. reflexivity.
    + exists data. split; [reflexivity | split; [reflexivity |]]. intros j.
      destruct (decide (i <= j)); [| reflexivity].
      rewrite (lookup_ge_None_2 data j) by lia. reflexivity.
Qed.

Lemma repaired_byte_unfold (j : nat) (b : byte) :
  repaired_byte j b = if decide (START_DATA_INDEX <= j) then comma_to_dot b else b.
Proof.
  unfold repaired_byte, comma_to_dot.
  destruct (decide (START_DATA_INDEX <= j)) as [H | H].
  - apply Nat.leb_le in H. rewrite H. reflexivity.
  - apply Nat.leb_nle in H. rewrite H. reflexivity.
Qed.

(** [replaceCommasWithDots] on a non-nil buffer: it returns, without an
    error, the buffer of the same length whose bytes are [repaired_byte]. *)
Lemma replaceCommasWithDots_Some (l : list byte) :
  exists l',
    replaceCommasWithDots (Some l) = Normal (Some l', None)
    /\ length l' = length l
    /\ forall j, l' !! j = repaired_byte j <$> l !! j.
Proof.
  destruct (replace_loop_spec (length l) START_DATA_INDEX l) as (l' & Hrun & Hlen & Hat);
    [lia |].
  exists l'. unfold replaceCommasWithDots. rewrite Hrun.
  split; [reflexivity | split; [exact Hlen |]]. intros j. rewrite Hat.
  destruct (l !! j) as [b |] eqn:Hb; simpl.
  - rewrite repaired_byte_unfold. destruct (decide (START_DATA_INDEX <= j)); reflexivity.
  - destruct (decide (START_DATA_INDEX <= j)); reflexivity.
Qed.

Lemma replaceCommasWithDots_nil :
  replaceCommasWithDots None = Normal (None, Some (errors_New "data is empty")).
Proof. reflexivity. Qed.

Lemma repaired_byte_idem (j : nat) (b : byte) :
  repaired_byte j (repaired_byte j b) = repaired_byte j b.
Proof.
  rewrite !repaired_byte_unfold.
  destruct (decide (START_DATA_INDEX <= j)); [apply comma_to_dot_idem | reflexivity].
Qed.

(** C4. For every byte buffer, [replaceCommasWithDots] returns with the
    buffer at its old length and, at every index [j], the byte
    [repaired_byte j b] where [b] was: [b] itself below the offset 100, a
    dot for a comma at or past 100, and [b] itself for any other byte at or
    past 100. *)
Theorem C4_repair_rewrites_commas_from_offset (data : goslice) :
  exists (data' : goslice) (err : option error),
    replaceCommasWithDots data = Normal (data', err)
    /\ len data' = len data
    /\ (forall j, byte_at data' j = repaired_byte j <$> byte_at data j)
    /\ (forall j b, repaired_byte j b
                    = if j <? 100 then b
                      else if Byte.eqb b CHAR_COMMA then CHAR_DOT else b).
Proof.
  destruct data as [l |].
  - destruct (replaceCommasWithDots_Some l) as (l' & Hrun & Hlen & Hat).
    exists (Some l'), None.
    split; [exact Hrun | split; [exact Hlen | split; [exact Hat |]]].
    intros j b. unfold repaired_byte, START_DATA_INDEX.
    destruct (Nat.ltb_spec j 100), (Nat.leb_spec 100 j); try lia; reflexivity.
  - exists None, (Some (errors_New "data is empty")).
    split; [reflexivity | split; [reflexivity | split; [reflexivity |]]].
    intros j b. unfold repaired_byte, START_DATA_INDEX.
    destruct (Nat.ltb_spec j 100), (Nat.leb_spec 100 j); try lia; reflexivity.
Qed.

Lemma replace_loop_past_end (fuel lengthOfData i : nat) (data : list byte) :
  lengthOfData <= i -> replace_loop fuel lengthOfData i data = Normal data.
Proof.
  intros Hle. destruct fuel; simpl;
    destruct (Nat.ltb_spec i lengthOfData); (lia || reflexivity).
Qed.

(** C6 as stated does not hold: the empty buffer that is not nil has
    length zero and is accepted. *)
Lemma C6_empty_buffer_is_accepted :
  len (Some []) = 0 /\ replaceCommasWithDots (Some []) = Normal (Some [], None).
Proof. split; reflexivity. Qed.

(** C6, amended. [replaceCommasWithDots] returns the error "data is empty"
    exactly when its input is the nil slice; on every non-nil buffer, the
    empty one included, it returns without an error. *)
Theorem C6_repair_fails_exactly_on_nil (data : goslice) :
  (data = None
   /\ replaceCommasWithDots data = Normal (None, Some (errors_New "data is empty")))
  \/ (exists l l', data = Some l
                   /\ replaceCommasWithDots data = Normal (Some l', None)).
Proof.
  destruct data as [l |].
  - right. destruct (replaceCommasWithDots_Some l) as (l' & Hrun & _).
    exists l, l'. split; [reflexivity | exact Hrun].
  - left. split; reflexivity.
Qed.

(** C7. On a non-nil buffer shorter than the offset 100,
    [replaceCommasWithDots] returns without an error and without a panic
    (no index is out of range), and the buffer is what it was. *)
Theorem C7_short_buffer_untouched (l : list byte) :
  length l < START_DATA_INDEX ->
  replaceCommasWithDots (Some l) = Normal (Some l, None).
Proof.
  intros Hshort. unfold replaceCommasWithDots.
  rewrite replace_loop_past_end by lia. reflexivity.
Qed.

Lemma C7_short_buffer_untouched_witness :
  length [x2c; x31; x2c] < START_DATA_INDEX
  /\ replaceCommasWithDots (Some [x2c; x31; x2c]) = Normal (Some [x2c; x31; x2c], None).
Proof.
  split.
  - unfold START_DATA_INDEX. simpl. lia.
  - apply (C7_short_buffer_untouched [x2c; x31; x2c]).
    unfold START_DATA_INDEX. simpl. lia.
Defined.

(** C9. [replaceCommasWithDots] is idempotent: on every buffer the first
    call returns, and a second call on the buffer it left returns the same
    error or success and leaves every byte as the first call left it. *)
Theorem C9_repair_idempotent (data : goslice) :
  exists (data' : goslice) (err : option error),
    replaceCommasWithDots data = Normal (data', err)
    /\ replaceCommasWithDots data' = Normal (data', err).
Proof.
  destruct data as [l |].
  - destruct (replaceCommasWithDots_Some l) as (l1 & Hrun1 & Hlen1 & Hat1).
    destruct (replaceCommasWithDots_Some l1) as (l2 & Hrun2 & Hlen2 & Hat2).
    exists (Some l1), None. split; [exact Hrun1 |].
    rewrite Hrun2. do 3 f_equal.
    apply list_eq. intros j. rewrite Hat2, Hat1.
    destruct (l !! j) as [b |]; simpl; [| reflexivity].
    now rewrite repaired_byte_idem.
  - exists None, (Some (errors_New "data is empty")). split; reflexivity.
Qed.

(** ** Running the orchestrator *)

Lemma extend_extend (w : World) (t1 t2 : list Event) :
  extend (extend w t1) t2 = extend w (t1 ++ t2).
Proof. unfold extend. simpl. now rewrite app_assoc. Qed.

Lemma extend_nil (w : World) : extend w [] = w.
Proof. destruct w. unfold extend. simpl. now rewrite app_nil_r. Qed.

Lemma run_emit (e : Event) (w : World) : emit e w = Ret tt (extend w [e]).
Proof. reflexivity. Qed.

Lemma run_call {A : Type} (e : Event) (a : A) (w : World) :
  call e a w = Ret a (extend w [e]).
Proof. reflexivity. Qed.

Lemma run_log_if_err (desc : string) (err : option error) (w : World) :
  log_if_err desc err w = Ret tt (extend w (error_line desc err)).
Proof.
  destruct err; simpl; [reflexivity |].
  unfold ret. now rewrite extend_nil.
Qed.

Lemma run_bind {St A B : Type} (m : M St A) (k : A -> M St B) (s s' : St) (a : A) :
  m s = Ret a s' -> bind m k s = k a s'.
Proof. intros H. unfold bind. now rewrite H. Qed.

Lemma run_bind_panic {St A B : Type} (m : M St A) (k : A -> M St B) (s s' : St) r :
  m s = Panic r s' -> bind m k s = Panic r s'.
Proof. intros H. unfold bind. now rewrite H. Qed.

(** Every buffer gets through [replaceCommasWithDots]: the nil slice with
    an error, any other with none. *)
Lemma replaceCommasWithDots_returns (data : goslice) :
  exists data' err,
    replaceCommasWithDots data = Normal (data', err)
    /\ (err = None <-> data <> None).
Proof.
  destruct data as [l |].
  - destruct (replaceCommasWithDots_Some l) as (l' & Hrun & _).
    exists (Some l'), None. split; [exact Hrun |]. split; congruence.
  - exists None, (Some (errors_New "data is empty")). split; [reflexivity |].
    split; congruence.
Qed.

(** The Source Fetcher always returns; what it returns and what it does
    are the same from every world; it reads the file once and the network
    never when the flag is set, and the other way round when it is not; with
    an error it returns the nil record set. *)
(** Runs the straight-line code of the goal and reads the result off. *)
Ltac run_go :=
  cbv [bind call emit modify ret panic deref gets lift_exec with_defer
       fastlog_Info fastlog_Debug fastlog_Error log_if_err
       mem_ops mem_op publish apply_op
       SetUpdateDatetime SetCurrencyStorage extend];
  repeat (simpl;
          repeat match goal with
                 | H : replaceCommasWithDots _ = _ |- _ => rewrite H
                 | H : xml_Parse _ _ = _ |- _ => rewrite H
                 end);
  rewrite <- ?app_assoc; simpl.

Ltac fetcher_case :=
  eexists _, _;
  split;
  [ intros w; run_go; reflexivity
  | simpl; repeat split; try reflexivity; try congruence ].

Lemma getParsedDataFromSource_run (config : Config) (c : Collaborators) :
  exists r new,
    (forall w, getParsedDataFromSource config c w = Ret r (extend w new))
    /\ count_events is_file_read new
       = (if IsReadCurrencyDataFromFile config then 1 else 0)
    /\ count_events is_network_read new
       = (if IsReadCurrencyDataFromFile config then 0 else 1)
    /\ count_events is_durable_insert new = 0
    /\ (snd r <> None -> fst r = None).
Proof.
  unfold getParsedDataFromSource, retrieve.
  destruct (replaceCommasWithDots_returns (fst (fs_GetCurrencyData c)))
    as (fdata & ferr & Hfrep & _).
  destruct (replaceCommasWithDots_returns (fst (hc_GetCurrencyData c)))
    as (hdata & herr & Hhrep & _).
  destruct (IsReadCurrencyDataFromFile config).
  - destruct (fs_GetCurrencyData c) as [data [e |]] eqn:Hsrc; simpl in Hfrep.
    + fetcher_case.
    + destruct ferr as [e |]; [fetcher_case |].
      destruct (xml_Parse c fdata) as [p [e |]] eqn:Hparse; fetcher_case.
  - destruct (hc_GetCurrencyData c) as [data [e |]] eqn:Hsrc; simpl in Hhrep.
    + fetcher_case.
    + destruct herr as [e |]; [fetcher_case |].
      destruct (xml_Parse c hdata) as [p [e |]] eqn:Hparse; fetcher_case.
Qed.

Lemma run_ret {St A : Type} (a : A) (s : St) : ret a s = Ret a s.
Proof. reflexivity. Qed.

Lemma run_publish (u : option UpdateDatetime) (s : option CurrencyStorage) (w : World) :
  mem_ops (publish u s) w
  = Ret tt {| memStorage := {| updateDatetime := u; currencyStorage := s |};
              trace := trace w |}.
Proof. reflexivity. Qed.

(** One statement of straight-line code: run it and go on with the rest. *)
Ltac go_step H :=
  first
    [ erewrite run_bind by
        (first [ apply run_emit | apply run_call | apply run_log_if_err
               | apply run_publish | apply run_ret | apply H ])
    | erewrite run_bind_panic by (first [ reflexivity | apply H ]) ];
  cbv beta iota.

Ltac go_steps H :=
  unfold fastlog_Info, fastlog_Debug, fastlog_Error; cbv beta iota;
  repeat first
    [ go_step H
    | progress (rewrite ?run_emit, ?run_call, ?run_log_if_err; cbv beta iota) ].

Ltac flatten_trace :=
  rewrite ?extend_extend; unfold extend; cbn [memStorage trace];
  rewrite <- ?app_assoc; cbn [app].

(** The stale branch: the fetcher is run, then [InsertUpdateDatetime] is
    called whatever the fetcher returned; a nil timestamp pointer panics
    at line 149, any other is handed to [InsertCurrencies] with the
    fetcher's record set. *)
Lemma refresh_stale_run (config : Config) (c : Collaborators)
    (latest : option UpdateDatetime) :
  exists parsed fnew,
    fetched config c = Some parsed
    /\ (snd parsed <> None -> fst parsed = None)
    /\ count_events is_durable_insert fnew = 0
    /\ forall w,
        refresh config c latest true w
        = match fst (db_InsertUpdateDatetime c (time_Now c)) with
          | Some u =>
              Ret (Some u, fst parsed)
                (extend w
                   ([EvLog LInfo "data is outdated" None;
                     EvLog LInfo "initializing update process..." None]
                    ++ fnew
                    ++ error_line "cannot get parsed data from source" (snd parsed)
                    ++ [EvLog LInfo "saving data..." None;
                        EvInsertUpdateDatetime (time_Now c)]
                    ++ error_line "cannot insert datetime into db"
                         (snd (db_InsertUpdateDatetime c (time_Now c)))
                    ++ [EvInsertCurrencies (fst parsed) (Id u)]
                    ++ error_line "cannot insert currencies into db"
                         (db_InsertCurrencies c (fst parsed) (Id u))))
          | None =>
              Panic nil_dereference
                (extend w
                   ([EvLog LInfo "data is outdated" None;
                     EvLog LInfo "initializing update process..." None]
                    ++ fnew
                    ++ error_line "cannot get parsed data from source" (snd parsed)
                    ++ [EvLog LInfo "saving data..." None;
                        EvInsertUpdateDatetime (time_Now c)]
                    ++ error_line "cannot insert datetime into db"
                         (snd (db_InsertUpdateDatetime c (time_Now c)))))
          end.
Proof.
  destruct (getParsedDataFromSource_run config c) as (r & fnew & Hrun & _ & _ & Hins & Hnil).
  exists r, fnew.
  split; [| split; [exact Hnil | split; [exact Hins |]]].
  - unfold fetched. rewrite Hrun. reflexivity.
  - intros w. unfold refresh. go_steps Hrun.
    destruct (db_InsertUpdateDatetime c (time_Now c)) as [[u |] ierr]; cbn [fst snd deref].
    + go_steps Hrun. unfold ret. flatten_trace. reflexivity.
    + go_steps Hrun. unfold panic. flatten_trace. reflexivity.
Qed.

(** The branch taken when the data is not stale: the stored timestamp
    pointer is dereferenced at line 154. *)
Lemma refresh_fresh_run (config : Config) (c : Collaborators)
    (latest : option UpdateDatetime) (w : World) :
  refresh config c latest false w
  = match latest with
    | Some u =>
        Ret (Some u, fst (db_GetLatestCurrencies c (Id u)))
          (extend w
             ([EvGetLatestCurrencies (Id u)]
              ++ error_line "cannot get currencies from db"
                   (snd (db_GetLatestCurrencies c (Id u)))))
    | None => Panic nil_dereference (extend w [])
    end.
Proof.
  unfold refresh. destruct latest as [u |]; cbn [deref].
  - go_steps (@run_ret World unit). unfold ret. flatten_trace. reflexivity.
  - go_steps (@run_ret World unit). now rewrite extend_nil.
Qed.

(** A cycle whose branch returns publishes what the branch left in
    [latestUpdateDatetime] and [latestCurrencyStorage], whatever errors were
    logged on the way. *)
Lemma cycle_of_refresh (config : Config) (c : Collaborators)
    (v : option UpdateDatetime * option CurrencyStorage) (t : list Event) :
  (forall w, refresh config c (fst (db_GetLatestUpdateDatetime c)) (stale c) w
             = Ret v (extend w t)) ->
  forall w,
    updateCurrencyDataInStorages config c w
    = Ret tt {| memStorage := {| updateDatetime := fst v; currencyStorage := snd v |};
                trace := trace w ++ cycle_head c ++ t ++ cycle_tail c |}.
Proof.
  intros Hbranch w. unfold updateCurrencyDataInStorages, with_defer.
  fold (stale c). go_steps Hbranch.
  unfold cycle_head, cycle_tail, cycle_deferred. flatten_trace. reflexivity.
Qed.

(** A cycle whose branch panics leaves the Read Cache alone, runs the
    deferred disconnect and goes on panicking. *)
Lemma cycle_of_refresh_panic (config : Config) (c : Collaborators)
    (reason : string) (t : list Event) :
  (forall w, refresh config c (fst (db_GetLatestUpdateDatetime c)) (stale c) w
             = Panic reason (extend w t)) ->
  forall w,
    updateCurrencyDataInStorages config c w
    = Panic reason {| memStorage := memStorage w;
                      trace := trace w ++ cycle_head c ++ t ++ cycle_deferred c |}.
Proof.
  intros Hbranch w. unfold updateCurrencyDataInStorages, with_defer.
  fold (stale c). go_steps Hbranch.
  unfold cycle_head, cycle_deferred. flatten_trace. reflexivity.
Qed.

(** A stale cycle in which [InsertUpdateDatetime] hands back a timestamp:
    all of it, errors or not. *)
Lemma cycle_stale_run (config : Config) (c : Collaborators) (u : UpdateDatetime) :
  stale c = true ->
  fst (db_InsertUpdateDatetime c (time_Now c)) = Some u ->
  exists parsed fnew,
    fetched config c = Some parsed
    /\ (snd parsed <> None -> fst parsed = None)
    /\ count_events is_durable_insert fnew = 0
    /\ forall w,
        updateCurrencyDataInStorages config c w
        = Ret tt
            {| memStorage := {| updateDatetime := Some u;
                                currencyStorage := fst parsed |};
               trace := trace w ++ cycle_head c
                        ++ ([EvLog LInfo "data is outdated" None;
                             EvLog LInfo "initializing update process..." None]
                            ++ fnew
                            ++ error_line "cannot get parsed data from source" (snd parsed)
                            ++ [EvLog LInfo "saving data..." None;
                                EvInsertUpdateDatetime (time_Now c)]
                            ++ error_line "cannot insert datetime into db"
                                 (snd (db_InsertUpdateDatetime c (time_Now c)))
                            ++ [EvInsertCurrencies (fst parsed) (Id u)]
                            ++ error_line "cannot insert currencies into db"
                                 (db_InsertCurrencies c (fst parsed) (Id u)))
                        ++ cycle_tail c |}.
Proof.
  intros Hstale Hins.
  destruct (refresh_stale_run config c (fst (db_GetLatestUpdateDatetime c)))
    as (parsed & fnew & Hfetched & Hnil & Hcount & Hbranch).
  rewrite Hins in Hbranch.
  exists parsed, fnew.
  split; [exact Hfetched | split; [exact Hnil | split; [exact Hcount |]]].
  apply (cycle_of_refresh config c (Some u, fst parsed)).
  intros w. rewrite Hstale. apply Hbranch.
Qed.

Lemma count_events_app (p : Event -> bool) (t1 t2 : list Event) :
  count_events p (t1 ++ t2) = count_events p t1 + count_events p t2.
Proof.
  induction t1 as [| e t1 IH]; simpl; [reflexivity |].
  rewrite IH. lia.
Qed.

Lemma count_inserts_error_line (desc : string) (err : option error) :
  count_events is_durable_insert (error_line desc err) = 0.
Proof. destruct err; reflexivity. Qed.

(** ** The Source Fetcher *)

(** C8. Every run of [getParsedDataFromSource] returns, and among the
    calls it made there is exactly one file read and no network read when
    [IsReadCurrencyDataFromFile] is set, exactly one network read and no
    file read when it is not. *)
Theorem C8_exactly_one_retrieval_strategy (config : Config) (c : Collaborators)
    (w : World) :
  exists r w' new,
    getParsedDataFromSource config c w = Ret r w'
    /\ trace w' = trace w ++ new
    /\ count_events is_file_read new
       = (if IsReadCurrencyDataFromFile config then 1 else 0)
    /\ count_events is_network_read new
       = (if IsReadCurrencyDataFromFile config then 0 else 1).
Proof.
  destruct (getParsedDataFromSource_run config c) as (r & new & Hrun & Hfile & Hnet & _).
  exists r, (extend w new), new.
  split; [apply Hrun | split; [reflexivity | split; assumption]].
Qed.

(** ** The update cycle *)

(** C1 as stated does not hold: the network read fails, the cycle
    runs to its end, and the Read Cache that held update 1 with its records
    now holds update 2 with the nil record set. *)
Lemma C1_failed_fetch_replaces_snapshot :
  fetched sample_config failing_fetch
  = Some (None, Some "cannot get curencies from web: connection refused")
  /\ exists w',
      updateCurrencyDataInStorages sample_config failing_fetch serving_before = Ret tt w'
      /\ Get (memStorage serving_before) = (Some stamp_before, Some stored_before)
      /\ Get (memStorage w')
         = (Some {| Id := 2; UpdateDatetimeText := "2023-05-02T12:00:00+03:00" |}, None)
      /\ Get (memStorage w') <> Get (memStorage serving_before).
Proof.
  split; [vm_compute; reflexivity |].
  eexists. split; [vm_compute; reflexivity |].
  split; [reflexivity | split; [reflexivity |]].
  cbn. discriminate.
Qed.

(** C1, amended. A cycle that finds the data stale and gets a timestamp
    back from [InsertUpdateDatetime] runs to its end whether or not the
    fetch or an insert reported an error, and then the Read Cache holds
    that timestamp together with the record set the Source Fetcher
    returned, which is the nil record set when the fetch failed; the
    snapshot installed before the cycle is not kept. *)
Theorem C1_stale_cycle_publishes_regardless (config : Config) (c : Collaborators)
    (w : World) (u : UpdateDatetime) :
  stale c = true ->
  fst (db_InsertUpdateDatetime c (time_Now c)) = Some u ->
  exists parsed w',
    fetched config c = Some parsed
    /\ updateCurrencyDataInStorages config c w = Ret tt w'
    /\ Get (memStorage w') = (Some u, fst parsed)
    /\ (snd parsed <> None -> Get (memStorage w') = (Some u, None)).
Proof.
  intros Hstale Hins.
  destruct (cycle_stale_run config c u Hstale Hins)
    as (parsed & fnew & Hfetched & Hnil & _ & Hcycle).
  exists parsed. eexists.
  split; [exact Hfetched |].
  split; [apply Hcycle |].
  split; [reflexivity |].
  intros Herr. cbn. now rewrite (Hnil Herr).
Qed.

Lemma C1_stale_cycle_publishes_regardless_witness :
  stale failing_fetch = true
  /\ fst (db_InsertUpdateDatetime failing_fetch (time_Now failing_fetch))
     = Some {| Id := 2; UpdateDatetimeText := "2023-05-02T12:00:00+03:00" |}
  /\ exists parsed w',
      fetched sample_config failing_fetch = Some parsed
      /\ updateCurrencyDataInStorages sample_config failing_fetch serving_before = Ret tt w'
      /\ Get (memStorage w')
         = (Some {| Id := 2; UpdateDatetimeText := "2023-05-02T12:00:00+03:00" |},
            fst parsed)
      /\ (snd parsed <> None ->
          Get (memStorage w')
          = (Some {| Id := 2; UpdateDatetimeText := "2023-05-02T12:00:00+03:00" |}, None)).
Proof.
  split; [reflexivity |]. split; [reflexivity |].
  apply (C1_stale_cycle_publishes_regardless sample_config failing_fetch serving_before);
    reflexivity.
Defined.

(** C5 as stated does not hold: the network read fails in a cycle
    that found the data stale, and the cycle still calls both durable
    inserts, the second one with the nil record set. *)
Lemma C5_failed_fetch_still_inserts :
  stale failing_fetch = true
  /\ fetched sample_config failing_fetch
     = Some (None, Some "cannot get curencies from web: connection refused")
  /\ exists w',
      updateCurrencyDataInStorages sample_config failing_fetch serving_before = Ret tt w'
      /\ In (EvInsertUpdateDatetime "2023-05-02T12:00:00+03:00") (trace w')
      /\ In (EvInsertCurrencies None 2) (trace w')
      /\ count_events is_durable_insert (trace w') = 2.
Proof.
  split; [reflexivity |]. split; [vm_compute; reflexivity |].
  eexists. split; [vm_compute; reflexivity |].
  cbn. intuition.
Qed.

(** C5, amended. In every cycle where the Freshness Evaluator reports
    stale, [InsertUpdateDatetime] is called with the current time, once,
    whether or not the Source Fetcher succeeded and whether the cycle then
    returns or panics, and no durable insert comes before it. When it hands
    back a timestamp, the cycle returns and [InsertCurrencies] is called
    after it with the record set the fetcher returned (the nil one after a
    failed fetch) and that timestamp's identifier; when it hands back the
    nil pointer, no other insert is called. These are the only durable
    inserts of the cycle. *)
Theorem C5_stale_cycle_inserts_regardless (config : Config) (c : Collaborators)
    (w : World) :
  stale c = true ->
  exists parsed w' before after,
    fetched config c = Some parsed
    /\ final_world (updateCurrencyDataInStorages config c w) = Some w'
    /\ trace w' = trace w ++ before ++ [EvInsertUpdateDatetime (time_Now c)] ++ after
    /\ count_events is_durable_insert before = 0
    /\ match fst (db_InsertUpdateDatetime c (time_Now c)) with
       | Some u =>
           updateCurrencyDataInStorages config c w = Ret tt w'
           /\ exists between rest,
               after = between ++ [EvInsertCurrencies (fst parsed) (Id u)] ++ rest
               /\ count_events is_durable_insert (between ++ rest) = 0
       | None => count_events is_durable_insert after = 0
       end.
Proof.
  intros Hstale.
  destruct (refresh_stale_run config c (fst (db_GetLatestUpdateDatetime c)))
    as (parsed & fnew & Hfetched & _ & Hcount & Hbranch).
  exists parsed.
  destruct (db_InsertUpdateDatetime c (time_Now c)) as [[u |] ierr] eqn:Hins;
    cbn [fst snd] in *.
  - eexists.
    exists (cycle_head c
            ++ [EvLog LInfo "data is outdated" None;
                EvLog LInfo "initializing update process..." None]
            ++ fnew
            ++ error_line "cannot get parsed data from source" (snd parsed)
            ++ [EvLog LInfo "saving data..." None]).
    exists (error_line "cannot insert datetime into db" ierr
            ++ [EvInsertCurrencies (fst parsed) (Id u)]
            ++ error_line "cannot insert currencies into db"
                 (db_InsertCurrencies c (fst parsed) (Id u))
            ++ cycle_tail c).
    split; [exact Hfetched |].
    rewrite (cycle_of_refresh config c (Some u, fst parsed) _
               (fun w0 => eq_trans (f_equal (fun b => refresh config c _ b w0) Hstale)
                            (Hbranch w0))).
    split; [reflexivity |]. split.
    { cbn [trace fst snd]. rewrite <- !app_assoc. cbn [app]. reflexivity. }
    split.
    { unfold cycle_head.
      rewrite !count_events_app, !count_inserts_error_line, Hcount. reflexivity. }
    split; [reflexivity |].
    exists (error_line "cannot insert datetime into db" ierr).
    exists (error_line "cannot insert currencies into db"
              (db_InsertCurrencies c (fst parsed) (Id u))
            ++ cycle_tail c).
    split; [reflexivity |].
    unfold cycle_tail, cycle_deferred.
    rewrite !count_events_app, !count_inserts_error_line. reflexivity.
  - eexists.
    exists (cycle_head c
            ++ [EvLog LInfo "data is outdated" None;
                EvLog LInfo "initializing update process..." None]
            ++ fnew
            ++ error_line "cannot get parsed data from source" (snd parsed)
            ++ [EvLog LInfo "saving data..." None]).
    exists (error_line "cannot insert datetime into db" ierr ++ cycle_deferred c).
    split; [exact Hfetched |].
    rewrite (cycle_of_refresh_panic config c nil_dereference _
               (fun w0 => eq_trans (f_equal (fun b => refresh config c _ b w0) Hstale)
                            (Hbranch w0))).
    split; [reflexivity |]. split.
    { cbn [trace]. rewrite <- !app_assoc. cbn [app]. reflexivity. }
    split.
    { unfold cycle_head.
      rewrite !count_events_app, !count_inserts_error_line, Hcount. reflexivity. }
    unfold cycle_deferred.
    rewrite !count_events_app, !count_inserts_error_line. reflexivity.
Qed.

Lemma C5_stale_cycle_inserts_regardless_witness :
  stale failing_insert = true
  /\ exists parsed w' before after,
      fetched sample_config failing_insert = Some parsed
      /\ final_world (updateCurrencyDataInStorages sample_config failing_insert serving_before)
         = Some w'
      /\ trace w' = trace serving_before ++ before
                    ++ [EvInsertUpdateDatetime (time_Now failing_insert)] ++ after
      /\ count_events is_durable_insert before = 0
      /\ match fst (db_InsertUpdateDatetime failing_insert (time_Now failing_insert)) with
         | Some u =>
             updateCurrencyDataInStorages sample_config failing_insert serving_before
             = Ret tt w'
             /\ exists between rest,
                 after = between ++ [EvInsertCurrencies (fst parsed) (Id u)] ++ rest
                 /\ count_events is_durable_insert (between ++ rest) = 0
         | None => count_events is_durable_insert after = 0
         end.
Proof.
  split; [reflexivity |].
  apply (C5_stale_cycle_inserts_regardless sample_config failing_insert serving_before).
  reflexivity.
Defined.

(** ** The loop of [Run] *)

Lemma cycle_returns (config : Config) (c : Collaborators) (w : World) :
  (if stale c
   then is_Some (fst (db_InsertUpdateDatetime c (time_Now c)))
   else is_Some (fst (db_GetLatestUpdateDatetime c))) ->
  exists w', updateCurrencyDataInStorages config c w = Ret tt w'.
Proof.
  destruct (stale c) eqn:Hstale; intros [u Hu].
  - destruct (cycle_stale_run config c u Hstale Hu) as (parsed & fnew & _ & _ & _ & Hcycle).
    eexists. apply Hcycle.
  - eexists. eapply cycle_of_refresh.
    intros w0. rewrite Hstale, refresh_fresh_run, Hu. reflexivity.
Qed.

(** Whatever errors the collaborators report, a turn of the loop reaches
    its sleep when the pointers it dereferences are non-nil. *)
Lemma Run_iteration_returns (config : Config) (c : Collaborators) (w : World) :
  hands_back_pointers c = true ->
  exists w', Run_iteration config c w = Ret tt w'.
Proof.
  unfold hands_back_pointers. intros H. apply andb_prop in H as [Hcycle Hnext].
  apply bool_decide_eq_true in Hnext. destruct Hnext as [d Hd].
  destruct (cycle_returns config c w) as [w1 Hw1].
  { destruct (stale c); now apply bool_decide_eq_true in Hcycle. }
  unfold Run_iteration.
  erewrite run_bind by exact Hw1. cbv beta.
  go_steps (@run_ret World unit). rewrite Hd. cbn [deref].
  go_steps (@run_ret World unit).
  destruct (srv_GetIsRunning c); cbn [negb]; go_steps (@run_ret World unit);
    eexists; reflexivity.
Qed.

(** The loop goes on turn after turn, errors or not, as long as the
    collaborators hand back the pointers it dereferences. *)
Lemma Run_turns_proceed (config : Config) (env : nat -> Collaborators) :
  (forall k, hands_back_pointers (env k) = true) ->
  forall n k w, exists w', Run_turns config env n k w = Ret tt w'.
Proof.
  intros Henv n. induction n as [| n IH]; intros k w; simpl.
  - eexists. reflexivity.
  - destruct (Run_iteration_returns config (env k) w (Henv k)) as [w1 Hw1].
    erewrite run_bind by exact Hw1. apply IH.
Qed.

(** C2. The defect: [InsertUpdateDatetime] reports an error and hands
    back the nil pointer; the error is logged, and the next statement (line
    149) dereferences the pointer, so the first turn of the loop panics and
    no later turn is run. *)
Theorem C2_insert_error_panics (n : nat) :
  exists w',
    Run_turns sample_config (fun _ => failing_insert) (S n) 0 serving_before
    = Panic nil_dereference w'
    /\ In (EvLog LError "cannot insert datetime into db" (Some "insert failed")) (trace w')
    /\ memStorage w' = memStorage serving_before.
Proof.
  eexists. split.
  - cbn [Run_turns]. apply run_bind_panic.
    unfold Run_iteration. apply run_bind_panic.
    vm_compute. reflexivity.
  - cbn. intuition.
Qed.

(** ** Readers beside the publish step *)

Lemma publish_invariant_step m u s i i' :
  publish_invariant m u s i -> step i i' -> publish_invariant m u s i'.
Proof.
  intros [Hstate Hobs] Hstep.
  destruct Hstep as [c0 op rest obs | c0 ops obs | c0 ops obs]; simpl in *.
  - split; [| exact Hobs].
    destruct Hstate as [[Hp Hc] | [[Hp Hc] | [Hp Hc]]]; unfold publish in Hp; subst.
    + right. left. inversion Hp; subst. split; reflexivity.
    + right. right. inversion Hp; subst. split; reflexivity.
    + discriminate.
  - split; [exact Hstate |].
    apply Forall_app. split; [exact Hobs |].
    constructor; [| constructor].
    destruct Hstate as [[_ Hc] | [[_ Hc] | [_ Hc]]]; subst; simpl; auto.
  - split; [exact Hstate |].
    apply Forall_app. split; [exact Hobs |].
    constructor; [| constructor].
    destruct Hstate as [[_ Hc] | [[_ Hc] | [_ Hc]]]; subst; simpl; auto.
Qed.

Lemma publish_invariant_reachable m u s i :
  rtc step (publishing m u s) i -> publish_invariant m u s i.
Proof.
  intros Hreach.
  apply (rtc_ind_r (R := step) (publish_invariant m u s) (publishing m u s)); [| | exact Hreach].
  - split; [left; split; reflexivity | constructor].
  - intros y z _ Hstep IH. exact (publish_invariant_step m u s y z IH Hstep).
Qed.

(** C3 as stated does not hold. A reader that reads the timestamp and
    the records between line 160 and line 161 gets the new timestamp with
    the previous records, which is what the cache holds at that moment; a
    reader that reads the timestamp before line 160 and the records after
    line 161 gets the previous timestamp with the new records. Neither
    pair is the previous snapshot or the new one. *)
Lemma C3_reader_between_the_stores :
  (rtc step (publishing (memStorage serving_before) (Some stamp_after) (Some stored_after))
       torn_read
   /\ Get (cache torn_read) = (Some stamp_after, Some stored_before)
   /\ timestamps_read (observed torn_read) = [Some stamp_after]
   /\ records_read (observed torn_read) = [Some stored_before]
   /\ ~ fully_previous (memStorage serving_before) (Some stamp_after, Some stored_before)
   /\ ~ fully_new (Some stamp_after) (Some stored_after)
         (Some stamp_after, Some stored_before))
  /\ (rtc step (publishing (memStorage serving_before) (Some stamp_after) (Some stored_after))
         crossed_read
      /\ timestamps_read (observed crossed_read) = [Some stamp_before]
      /\ records_read (observed crossed_read) = [Some stored_after]
      /\ ~ fully_previous (memStorage serving_before) (Some stamp_before, Some stored_after)
      /\ ~ fully_new (Some stamp_after) (Some stored_after)
            (Some stamp_before, Some stored_after)).
Proof.
  split.
  - split.
    + eapply rtc_l; [apply step_store |].
      eapply rtc_l; [apply step_get_timestamp |].
      eapply rtc_l; [apply step_get_records |].
      apply rtc_refl.
    + repeat split; unfold fully_previous, fully_new; cbn; discriminate.
  - split.
    + eapply rtc_l; [apply step_get_timestamp |].
      eapply rtc_l; [apply step_store |].
      eapply rtc_l; [apply step_store |].
      eapply rtc_l; [apply step_get_records |].
      apply rtc_refl.
    + repeat split; unfold fully_previous, fully_new; cbn; discriminate.
Qed.

(** C3, amended. The publish step is two stores, the timestamp at line
    160 and then the records at line 161, each indivisible on its own and
    nothing joining them. At every moment of the step the cache holds the
    previous pair, or the new timestamp with the previous records, or the
    new pair, and never the previous timestamp with the new records; every
    read of a field running beside the step returns the previous or the new
    value of that field. Nothing more holds of the pair a reader makes of
    two reads. *)
Theorem C3_publish_is_two_stores (m : MemStorage) (u : option UpdateDatetime)
    (s : option CurrencyStorage) (i : Interleaving) :
  rtc step (publishing m u s) i ->
  (cache i = m
   \/ cache i = {| updateDatetime := u; currencyStorage := currencyStorage m |}
   \/ cache i = {| updateDatetime := u; currencyStorage := s |})
  /\ Forall (previous_or_new m u s) (observed i).
Proof.
  intros Hreach.
  destruct (publish_invariant_reachable m u s i Hreach) as [Hstate Hobs].
  split; [| exact Hobs].
  destruct Hstate as [[_ Hc] | [[_ Hc] | [_ Hc]]]; rewrite Hc; auto.
Qed.

Lemma C3_publish_is_two_stores_witness :
  (cache torn_read = memStorage serving_before
   \/ cache torn_read
      = {| updateDatetime := Some stamp_after;
           currencyStorage := currencyStorage (memStorage serving_before) |}
   \/ cache torn_read
      = {| updateDatetime := Some stamp_after; currencyStorage := Some stored_after |})
  /\ Forall (previous_or_new (memStorage serving_before) (Some stamp_after)
               (Some stored_after))
       (observed torn_read).
Proof.
  apply (C3_publish_is_two_stores (memStorage serving_before) (Some stamp_after)
           (Some stored_after) torn_read).
  eapply rtc_l; [apply step_store |].
  eapply rtc_l; [apply step_get_timestamp |].
  eapply rtc_l; [apply step_get_records |].
  apply rtc_refl.
Defined.

(** ** The [/currencies.json] handler *)

(** The response after the first two statements of the handler. *)
Lemma response_after_WriteHeader :
  HttpServer.WriteHeader HttpServer.StatusOK
    (HttpServer.Header_Set "Content-Type" "application/json" HttpServer.NewResponse)
  = {| HttpServer.header := <["Content-Type" := "application/json"]> ∅;
       HttpServer.wroteHeader := Some (200%Z, <["Content-Type" := "application/json"]> ∅);
       HttpServer.body := [] |}.
Proof. reflexivity. Qed.

Ltac run_handler :=
  cbv [HttpServer.handler HttpServer.getCurrencies HttpServer.w_Write
       HttpServer.record HttpServer.on_response HttpServer.client_receives
       HttpServer.Write HttpServer.WriteHeader HttpServer.Header_Set
       HttpServer.NewRequest HttpServer.NewResponse
       HttpServer.response HttpServer.calls
       HttpServer.wroteHeader HttpServer.header HttpServer.body
       HttpServer.status
       bind modify gets ret deref panic GetCurrencyStorage fst snd app
       fmap option_fmap option_map mbind option_bind].


(** ** Worked examples *)

(** The example of the spec: 120 bytes, a comma at index 50 and another at
    index 110; after the repair the first is still a comma and the second
    is a dot. *)
Example repair_120_bytes :
  let buffer := <[50 := CHAR_COMMA]> (<[110 := CHAR_COMMA]> (replicate 120 x20)) in
  exists repaired,
    replaceCommasWithDots (Some buffer) = Normal (Some repaired, None)
    /\ repaired !! 50 = Some CHAR_COMMA
    /\ repaired !! 110 = Some CHAR_DOT
    /\ repaired = <[110 := CHAR_DOT]> buffer.
Proof.
  eexists. split; [vm_compute; reflexivity |].
  split; [reflexivity | split; reflexivity].
Qed.

(** [json.Marshal] fails: [getCurrencies] returns an error, the handler
    returns nothing of it, and the server sends status 200 with an empty
    body. *)
Example handler_drops_marshal_error :
  (exists r, HttpServer.getCurrencies serving_unmarshallable HttpServer.NewRequest
             = Ret (Some "cannot marshall curencies to json: unsupported value") r)
  /\ (exists r, HttpServer.handler serving_unmarshallable HttpServer.NewRequest = Ret tt r)
  /\ HttpServer.client_receives
       (HttpServer.handler serving_unmarshallable HttpServer.NewRequest)
     = Some {| HttpServer.code := 200;
               HttpServer.fields := <["Content-Type" := "application/json"]> ∅;
               HttpServer.payload := [] |}.
Proof.
  split; [eexists; vm_compute; reflexivity |].
  split; [eexists; vm_compute; reflexivity |]. reflexivity.
Qed.

(** With collaborators that work, the first turn of the loop publishes
    update 2, starts the server and goes to sleep. *)
Example first_turn_publishes :
  exists w',
    Run_turns sample_config (fun _ => sample (Some [x3c; x2f; x3e], None) insert_ok) 1 0
      World_New = Ret tt w'
    /\ Get (memStorage w') = (Some stamp_after, Some stored_before)
    /\ In EvGoHttpServerRun (trace w')
    /\ last (trace w') = Some (EvSleep 3600000000000%Z).
Proof.
  eexists. split; [vm_compute; reflexivity |].
  split; [reflexivity |]. split; [cbn; intuition | reflexivity].
Qed.

(** * Further properties *)

(** ** More on the Feed Normalizer *)

Lemma repaired_lookup (l : list byte) (j : nat) :
  (take START_DATA_INDEX l ++ (comma_to_dot <$> drop START_DATA_INDEX l)) !! j
  = repaired_byte j <$> l !! j.
Proof.
  destruct (decide (j < START_DATA_INDEX)) as [Hlt | Hge].
  - destruct (decide (j < length l)) as [Hin | Hout].
    + rewrite lookup_app_l by (rewrite length_take; lia).
      rewrite lookup_take_lt by exact Hlt.
      destruct (l !! j) as [b |]; [| reflexivity]. simpl.
      rewrite repaired_byte_unfold. destruct (decide (START_DATA_INDEX <= j)); [lia | reflexivity].
    + rewrite (lookup_ge_None_2 l j) by lia.
      apply lookup_ge_None_2.
      rewrite length_app, length_take, length_fmap, length_drop. lia.
  - rewrite lookup_app_r by (rewrite length_take; lia).
    rewrite list_lookup_fmap, lookup_drop, length_take.
    destruct (decide (length l <= START_DATA_INDEX)) as [Hshort | Hlong].
    + rewrite (lookup_ge_None_2 l j) by lia.
      rewrite (lookup_ge_None_2 l _) by lia. reflexivity.
    + replace (START_DATA_INDEX + (j - START_DATA_INDEX `min` length l)) with j by lia.
      destruct (l !! j) as [b |]; [| reflexivity]. simpl.
      rewrite repaired_byte_unfold. destruct (decide (START_DATA_INDEX <= j)); [reflexivity | lia].
Qed.

Lemma comma_to_dot_not_comma (b : byte) : comma_to_dot b <> CHAR_COMMA.
Proof.
  unfold comma_to_dot. destruct (Byte.eqb b CHAR_COMMA) eqn:E.
  - discriminate.
  - intros ->. rewrite (proj2 (byte_eqb_eq CHAR_COMMA CHAR_COMMA) eq_refl) in E. discriminate.
Qed.

Lemma comma_to_dot_fixed (b : byte) : b <> CHAR_COMMA -> comma_to_dot b = b.
Proof.
  intros Hb. unfold comma_to_dot. destruct (Byte.eqb b CHAR_COMMA) eqn:E; [| reflexivity].
  apply byte_eqb_eq in E. contradiction.
Qed.

Lemma replaceCommasWithDots_closed (l : list byte) :
  replaceCommasWithDots (Some l)
  = Normal (Some (take START_DATA_INDEX l ++ (comma_to_dot <$> drop START_DATA_INDEX l)),
            None).
Proof.
  destruct (replaceCommasWithDots_Some l) as (l' & Hrun & _ & Hat).
  rewrite Hrun. do 3 f_equal. apply list_eq. intros j.
  rewrite Hat, repaired_lookup. reflexivity.
Qed.

Lemma drop_repaired (l : list byte) :
  drop START_DATA_INDEX
    (take START_DATA_INDEX l ++ (comma_to_dot <$> drop START_DATA_INDEX l))
  = comma_to_dot <$> drop START_DATA_INDEX l.
Proof.
  destruct (decide (START_DATA_INDEX <= length l)) as [Hlong | Hshort].
  - apply drop_app_length'. rewrite length_take. lia.
  - rewrite (drop_ge l) by lia. simpl. rewrite app_nil_r.
    apply drop_ge. rewrite length_take. lia.
Qed.

(** X1. On a non-nil buffer the repair returns the first 100 bytes as
    they were followed by the rest with each comma turned into a dot, and
    the buffer it leaves holds no comma from index 100 on. *)
Theorem X1_repair_closed_form (l : list byte) :
  exists l',
    replaceCommasWithDots (Some l) = Normal (Some l', None)
    /\ l' = take START_DATA_INDEX l ++ (comma_to_dot <$> drop START_DATA_INDEX l)
    /\ CHAR_COMMA ∉ drop START_DATA_INDEX l'.
Proof.
  eexists. split; [apply replaceCommasWithDots_closed |]. split; [reflexivity |].
  rewrite drop_repaired. intros Hin.
  apply list_elem_of_fmap in Hin as (b & Hb & _).
  symmetry in Hb. exact (comma_to_dot_not_comma b Hb).
Qed.

(** X2. The repair hands a non-nil buffer back unchanged exactly when the
    buffer holds no comma from index 100 on. *)
Theorem X2_repair_fixed_points (l : list byte) :
  replaceCommasWithDots (Some l) = Normal (Some l, None)
  <-> CHAR_COMMA ∉ drop START_DATA_INDEX l.
Proof.
  rewrite replaceCommasWithDots_closed. split.
  - intros Hsame. injection Hsame as Hsame.
    assert (Hdrop : drop START_DATA_INDEX l = comma_to_dot <$> drop START_DATA_INDEX l).
    { rewrite <- Hsame at 1. apply drop_repaired. }
    rewrite Hdrop. intros Hin.
    apply list_elem_of_fmap in Hin as (b & Hb & _).
    symmetry in Hb. exact (comma_to_dot_not_comma b Hb).
  - intros Hno. do 3 f_equal.
    rewrite <- (take_drop START_DATA_INDEX l) at 3. f_equal.
    rewrite <- (list_fmap_id (drop START_DATA_INDEX l)) at 2.
    apply list_fmap_ext. intros j b Hb. unfold id.
    apply comma_to_dot_fixed.
    intros ->. apply Hno. eapply list_elem_of_lookup_2, Hb.
Qed.

(** ** More on the update cycle *)

(** What the Source Fetcher returns and does is the same from every
    world. *)
Lemma fetcher_runs (config : Config) (c : Collaborators) :
  exists r fnew,
    (forall w, getParsedDataFromSource config c w = Ret r (extend w fnew))
    /\ forallb fetcher_event fnew = true.
Proof.
  unfold getParsedDataFromSource, retrieve.
  destruct (replaceCommasWithDots_returns (fst (fs_GetCurrencyData c)))
    as (fdata & ferr & Hfrep & _).
  destruct (replaceCommasWithDots_returns (fst (hc_GetCurrencyData c)))
    as (hdata & herr & Hhrep & _).
  destruct (IsReadCurrencyDataFromFile config).
  - destruct (fs_GetCurrencyData c) as [data [e |]] eqn:Hsrc; simpl in Hfrep.
    + fetcher_case.
    + destruct ferr as [e |]; [fetcher_case |].
      destruct (xml_Parse c fdata) as [p [e |]] eqn:Hparse; fetcher_case.
  - destruct (hc_GetCurrencyData c) as [data [e |]] eqn:Hsrc; simpl in Hhrep.
    + fetcher_case.
    + destruct herr as [e |]; [fetcher_case |].
      destruct (xml_Parse c hdata) as [p [e |]] eqn:Hparse; fetcher_case.
Qed.

(** A whole cycle, in each of its four cases. *)
Lemma cycle_run (config : Config) (c : Collaborators)
    (r : option CurrencyStorage * option error) (fnew : list Event) :
  (forall w, getParsedDataFromSource config c w = Ret r (extend w fnew)) ->
  forall w,
    updateCurrencyDataInStorages config c w
    = cycle_end c
        {| memStorage := cycle_cache c r (memStorage w);
           trace := trace w ++ cycle_head c ++ cycle_events c r fnew ++ cycle_deferred c |}.
Proof.
  intros Hrun w.
  unfold cycle_end, cycle_cache, cycle_events, branch_pointer.
  destruct (stale c) eqn:Hstale.
  - destruct (db_InsertUpdateDatetime c (time_Now c)) as [[u |] ierr] eqn:Hins; cbn [fst snd].
    + assert (Hbranch : forall w0,
                 refresh config c (fst (db_GetLatestUpdateDatetime c)) (stale c) w0
                 = Ret (Some u, fst r)
                     (extend w0
                        ([EvLog LInfo "data is outdated" None;
                          EvLog LInfo "initializing update process..." None]
                         ++ fnew
                         ++ error_line "cannot get parsed data from source" (snd r)
                         ++ [EvLog LInfo "saving data..." None;
                             EvInsertUpdateDatetime (time_Now c)]
                         ++ error_line "cannot insert datetime into db" ierr
                         ++ [EvInsertCurrencies (fst r) (Id u)]
                         ++ error_line "cannot insert currencies into db"
                              (db_InsertCurrencies c (fst r) (Id u))))).
      { intros w0. rewrite Hstale. unfold refresh. go_steps Hrun.
        rewrite Hins. cbn [fst snd deref]. go_steps Hrun. unfold ret.
        flatten_trace. reflexivity. }
      rewrite (cycle_of_refresh config c _ _ Hbranch).
      unfold cycle_tail. cbn [fst snd]. rewrite <- !app_assoc. reflexivity.
    + assert (Hbranch : forall w0,
                 refresh config c (fst (db_GetLatestUpdateDatetime c)) (stale c) w0
                 = Panic nil_dereference
                     (extend w0
                        ([EvLog LInfo "data is outdated" None;
                          EvLog LInfo "initializing update process..." None]
                         ++ fnew
                         ++ error_line "cannot get parsed data from source" (snd r)
                         ++ [EvLog LInfo "saving data..." None;
                             EvInsertUpdateDatetime (time_Now c)]
                         ++ error_line "cannot insert datetime into db" ierr))).
      { intros w0. rewrite Hstale. unfold refresh. go_steps Hrun.
        rewrite Hins. cbn [fst snd deref]. go_steps Hrun. unfold panic.
        flatten_trace. reflexivity. }
      rewrite (cycle_of_refresh_panic config c _ _ Hbranch).
      rewrite <- ?app_assoc. cbn [app]. reflexivity.
  - destruct (db_GetLatestUpdateDatetime c) as [[u |] lerr] eqn:Hlatest; cbn [fst snd].
    + assert (Hbranch : forall w0,
                 refresh config c (fst (db_GetLatestUpdateDatetime c)) (stale c) w0
                 = Ret (Some u, fst (db_GetLatestCurrencies c (Id u)))
                     (extend w0
                        ([EvGetLatestCurrencies (Id u)]
                         ++ error_line "cannot get currencies from db"
                              (snd (db_GetLatestCurrencies c (Id u)))))).
      { intros w0. rewrite Hstale, Hlatest, refresh_fresh_run. reflexivity. }
      rewrite (cycle_of_refresh config c _ _ Hbranch).
      unfold cycle_tail. cbn [fst snd]. rewrite <- !app_assoc. reflexivity.
    + assert (Hbranch : forall w0,
                 refresh config c (fst (db_GetLatestUpdateDatetime c)) (stale c) w0
                 = Panic nil_dereference (extend w0 [])).
      { intros w0. rewrite Hstale, Hlatest, refresh_fresh_run. reflexivity. }
      rewrite (cycle_of_refresh_panic config c _ _ Hbranch). reflexivity.
Qed.

Lemma count_events_error_line (p : Event -> bool) (desc : string) (err : option error) :
  (forall l m e, p (EvLog l m e) = false) ->
  count_events p (error_line desc err) = 0.
Proof. intros Hp. destruct err; simpl; [rewrite Hp |]; reflexivity. Qed.

Lemma count_events_fetcher (p : Event -> bool) (t : list Event) :
  (forall e, fetcher_event e = true -> p e = false) ->
  forallb fetcher_event t = true ->
  count_events p t = 0.
Proof.
  intros Hp. induction t as [| e t IH]; simpl; [reflexivity |].
  intros Hall. apply andb_prop in Hall as [He Ht].
  rewrite (Hp e He), (IH Ht). reflexivity.
Qed.

Lemma final_world_cycle_end (c : Collaborators) (w : World) :
  final_world (cycle_end c w) = Some w.
Proof. unfold cycle_end. destruct (branch_pointer c); reflexivity. Qed.

(** Counts that are zero over the events of a cycle, for a kind of event
    that is neither a log line nor an event of the fetcher. *)
Ltac count_zero Hall :=
  repeat first
    [ rewrite count_events_app
    | rewrite count_events_error_line by (intros; reflexivity)
    | match goal with
      | |- context [count_events ?p ?t] =>
          rewrite (count_events_fetcher p t)
            by first [ exact Hall
                     | intros e He; destruct e; (discriminate || reflexivity) ]
      end ];
  try reflexivity.

(** X3. Every cycle, whether it returns or panics, opens with [Connect]
    and closes with the deferred [Disconnect] and the log line of its error
    if it has one; between the two it calls neither. *)
Theorem X3_cycle_connects_first_disconnects_last (config : Config) (c : Collaborators)
    (w : World) :
  exists w' mid,
    final_world (updateCurrencyDataInStorages config c w) = Some w'
    /\ trace w' = trace w ++ [EvConnect] ++ mid ++ [EvDisconnect]
                  ++ error_line "cannot disconnect from db to do data update"
                       (db_Disconnect c)
    /\ count_events is_connect mid = 0
    /\ count_events is_disconnect mid = 0.
Proof.
  destruct (fetcher_runs config c) as (r & fnew & Hrun & Hall).
  rewrite (cycle_run config c r fnew Hrun), final_world_cycle_end.
  eexists. exists (error_line "cannot connect to db to do data update" (db_Connect c)
                   ++ [EvLog LInfo "checking latest update time..." None;
                       EvGetLatestUpdateDatetime]
                   ++ error_line "cannot get current update datetime"
                        (snd (db_GetLatestUpdateDatetime c))
                   ++ [EvIsNeedForUpdateDb (fst (db_GetLatestUpdateDatetime c))]
                   ++ error_line "cannot check is need update for db or not"
                        (snd (tc_IsNeedForUpdateDb c (fst (db_GetLatestUpdateDatetime c))))
                   ++ cycle_events c r fnew).
  split; [reflexivity |]. split.
  - cbn [trace]. unfold cycle_head, cycle_deferred. rewrite <- !app_assoc. reflexivity.
  - unfold cycle_events.
    destruct (stale c);
      [ destruct (fst (db_InsertUpdateDatetime c (time_Now c)))
      | destruct (fst (db_GetLatestUpdateDatetime c)) ];
      split; count_zero Hall.
Qed.

(** X4. A cycle ends in one of two ways. Either the timestamp pointer of
    the branch it takes (the one [InsertUpdateDatetime] returned when the
    data is stale, the one [GetLatestUpdateDatetime] returned when it is
    not) is non-nil, and the cycle returns with that timestamp in the Read
    Cache; or the pointer is nil, and the cycle panics on the nil
    dereference with the Read Cache as it was. *)
Theorem X4_cycle_returns_or_panics_on_nil (config : Config) (c : Collaborators)
    (w : World) :
  (exists u w',
      branch_pointer c = Some u
      /\ updateCurrencyDataInStorages config c w = Ret tt w'
      /\ GetUpdateDatetime (memStorage w') = Some u)
  \/ (branch_pointer c = None
      /\ exists w',
          updateCurrencyDataInStorages config c w = Panic nil_dereference w'
          /\ memStorage w' = memStorage w).
Proof.
  destruct (fetcher_runs config c) as (r & fnew & Hrun & _).
  rewrite (cycle_run config c r fnew Hrun).
  unfold cycle_end, cycle_cache.
  destruct (branch_pointer c) as [u |].
  - left. exists u. eexists. split; [reflexivity |]. split; reflexivity.
  - right. split; [reflexivity |]. eexists. split; reflexivity.
Qed.

(** X5. A cycle that finds the data fresh and holds a timestamp calls
    [GetLatestCurrencies] with that timestamp's identifier and publishes
    the timestamp with whatever record set the call handed back; it reads
    no file, fetches nothing from the network, parses nothing and inserts
    nothing. *)
Theorem X5_fresh_cycle_reads_the_store (config : Config) (c : Collaborators)
    (w : World) (u : UpdateDatetime) :
  stale c = false ->
  fst (db_GetLatestUpdateDatetime c) = Some u ->
  exists w' new,
    updateCurrencyDataInStorages config c w = Ret tt w'
    /\ Get (memStorage w') = (Some u, fst (db_GetLatestCurrencies c (Id u)))
    /\ trace w' = trace w ++ new
    /\ In (EvGetLatestCurrencies (Id u)) new
    /\ count_events
         (fun e => is_file_read e || is_network_read e || is_parse e || is_durable_insert e)
         new = 0.
Proof.
  intros Hstale Hlatest.
  destruct (fetcher_runs config c) as (r & fnew & Hrun & Hall).
  rewrite (cycle_run config c r fnew Hrun).
  unfold cycle_end, cycle_cache, cycle_events, branch_pointer.
  rewrite Hstale, Hlatest. cbv beta iota.
  eexists. eexists. split; [reflexivity |].
  split; [reflexivity |]. split; [reflexivity |]. split.
  - apply in_or_app. right. apply in_or_app. left. left. reflexivity.
  - unfold cycle_head, cycle_deferred. count_zero Hall.
Qed.

Lemma X5_fresh_cycle_reads_the_store_witness :
  exists w' new,
    updateCurrencyDataInStorages sample_config
      (unreachable_db (Some stamp_before) (Some 5%Z)) World_New = Ret tt w'
    /\ Get (memStorage w')
       = (Some stamp_before,
          fst (db_GetLatestCurrencies (unreachable_db (Some stamp_before) (Some 5%Z))
                 (Id stamp_before)))
    /\ trace w' = trace World_New ++ new
    /\ In (EvGetLatestCurrencies (Id stamp_before)) new
    /\ count_events
         (fun e => is_file_read e || is_network_read e || is_parse e || is_durable_insert e)
         new = 0.
Proof.
  apply (X5_fresh_cycle_reads_the_store sample_config
           (unreachable_db (Some stamp_before) (Some 5%Z)) World_New stamp_before);
    reflexivity.
Defined.

(** X6. A cycle that returns leaves a Read Cache that does not depend on
    the one it found: run from any other world under the same
    collaborators it returns too, with the same cache. *)
Theorem X6_cycle_overwrites_whole_cache (config : Config) (c : Collaborators)
    (w1 w2 w1' : World) :
  updateCurrencyDataInStorages config c w1 = Ret tt w1' ->
  exists w2',
    updateCurrencyDataInStorages config c w2 = Ret tt w2'
    /\ memStorage w2' = memStorage w1'.
Proof.
  destruct (fetcher_runs config c) as (r & fnew & Hrun & _).
  rewrite !(cycle_run config c r fnew Hrun).
  unfold cycle_end, cycle_cache.
  destruct (branch_pointer c) as [u |]; [| discriminate].
  intros Hret. injection Hret as <-.
  eexists. split; reflexivity.
Qed.

Lemma X6_cycle_overwrites_whole_cache_witness :
  exists w2',
    updateCurrencyDataInStorages sample_config failing_fetch World_New = Ret tt w2'
    /\ memStorage w2'
       = {| updateDatetime := Some stamp_after; currencyStorage := None |}.
Proof.
  eapply (X6_cycle_overwrites_whole_cache sample_config failing_fetch serving_before
            World_New
            {| memStorage := {| updateDatetime := Some stamp_after;
                                currencyStorage := None |};
               trace := _ |}).
  vm_compute. reflexivity.
Defined.

(** X7. A failed [Connect] does not keep a cycle from the database: the
    error is logged and [GetLatestUpdateDatetime] is called next all the
    same. *)
Theorem X7_failed_connect_is_logged_and_ignored (config : Config) (c : Collaborators)
    (w : World) (e : error) :
  db_Connect c = Some e ->
  exists w' rest,
    final_world (updateCurrencyDataInStorages config c w) = Some w'
    /\ trace w' = trace w
                  ++ [EvConnect;
                      EvLog LError "cannot connect to db to do data update" (Some e);
                      EvLog LInfo "checking latest update time..." None;
                      EvGetLatestUpdateDatetime]
                  ++ rest.
Proof.
  intros Hconnect.
  destruct (fetcher_runs config c) as (r & fnew & Hrun & _).
  rewrite (cycle_run config c r fnew Hrun), final_world_cycle_end.
  eexists. eexists. split; [reflexivity |].
  cbn [trace]. unfold cycle_head. rewrite Hconnect. cbn [error_line].
  rewrite <- !app_assoc. cbn [app]. reflexivity.
Qed.

Lemma X7_failed_connect_is_logged_and_ignored_witness :
  exists w' rest,
    final_world
      (updateCurrencyDataInStorages sample_config (unreachable_db None None) World_New)
    = Some w'
    /\ trace w' = trace World_New
                  ++ [EvConnect;
                      EvLog LError "cannot connect to db to do data update"
                        (Some "connection refused");
                      EvLog LInfo "checking latest update time..." None;
                      EvGetLatestUpdateDatetime]
                  ++ rest.
Proof.
  apply (X7_failed_connect_is_logged_and_ignored sample_config (unreachable_db None None)
           World_New "connection refused").
  reflexivity.
Defined.

(** ** More on the Source Fetcher *)

(** X8. When the selected retrieval reports an error, the fetcher returns
    the nil record set with that error behind the strategy's description;
    the buffer is not repaired and the parser is not called. *)
Theorem X8_retrieval_error_skips_parser (config : Config) (c : Collaborators)
    (w : World) (e : error) :
  snd (source_read config c) = Some e ->
  exists w' new,
    getParsedDataFromSource config c w
    = Ret (None, Some (DecorateError (retrieval_context config) e)) w'
    /\ memStorage w' = memStorage w
    /\ trace w' = trace w ++ new
    /\ count_events is_parse new = 0.
Proof.
  unfold source_read, retrieval_context, getParsedDataFromSource, retrieve.
  destruct (IsReadCurrencyDataFromFile config).
  - destruct (fs_GetCurrencyData c) as [data err]. simpl. intros ->.
    eexists. eexists. run_go. split; [reflexivity |]. split; [reflexivity |].
    split; reflexivity.
  - destruct (hc_GetCurrencyData c) as [data err]. simpl. intros ->.
    eexists. eexists. run_go. split; [reflexivity |]. split; [reflexivity |].
    split; reflexivity.
Qed.

Lemma X8_retrieval_error_skips_parser_witness :
  exists w' new,
    getParsedDataFromSource sample_config failing_fetch World_New
    = Ret (None, Some (DecorateError (retrieval_context sample_config) "connection refused"))
        w'
    /\ memStorage w' = memStorage World_New
    /\ trace w' = trace World_New ++ new
    /\ count_events is_parse new = 0.
Proof.
  apply (X8_retrieval_error_skips_parser sample_config failing_fetch World_New
           "connection refused").
  reflexivity.
Defined.

(** X9. When the selected retrieval hands back a non-nil buffer and no
    error, the parser is called once, on the buffer with the commas from
    index 100 on turned into dots; the fetcher returns the parser's record
    set when the parser reports no error, and the nil record set with the
    parser's error behind "cannot parse data" when it does. *)
Theorem X9_parser_gets_repaired_buffer (config : Config) (c : Collaborators)
    (w : World) (l : list byte) :
  source_read config c = (Some l, None) ->
  let repaired := Some (take START_DATA_INDEX l
                        ++ (comma_to_dot <$> drop START_DATA_INDEX l)) in
  exists w' new,
    getParsedDataFromSource config c w
    = Ret (match snd (xml_Parse c repaired) with
           | Some e => (None, Some (DecorateError "cannot parse data" e))
           | None => (fst (xml_Parse c repaired), None)
           end) w'
    /\ trace w' = trace w ++ new
    /\ In (EvParse repaired) new
    /\ count_events is_parse new = 1.
Proof.
  intros Hsrc repaired. subst repaired.
  pose proof (replaceCommasWithDots_closed l) as Hrep.
  unfold source_read in Hsrc.
  unfold getParsedDataFromSource, retrieve.
  destruct (IsReadCurrencyDataFromFile config); rewrite Hsrc;
    destruct (xml_Parse c _) as [p [e |]] eqn:Hparse;
    eexists; eexists;
    cbv [bind call emit modify ret fastlog_Info fastlog_Debug lift_exec];
    cbn [fst snd]; rewrite Hrep; cbv beta iota; cbn [fst snd];
    rewrite Hparse; cbn [fst snd memStorage trace];
    rewrite <- ?app_assoc; cbn [app];
    (split; [reflexivity |]); (split; [reflexivity |]);
    (split; [cbn; intuition | reflexivity]).
Qed.

Lemma X9_parser_gets_repaired_buffer_witness :
  exists w' new,
    getParsedDataFromSource sample_config healthy World_New
    = Ret (Some stored_before, None) w'
    /\ trace w' = trace World_New ++ new
    /\ In (EvParse (Some (replicate 100 CHAR_COMMA ++ replicate 4 CHAR_DOT))) new
    /\ count_events is_parse new = 1.
Proof.
  apply (X9_parser_gets_repaired_buffer sample_config healthy World_New
           (replicate 104 CHAR_COMMA)).
  reflexivity.
Defined.

(** X10. When the selected retrieval hands back the nil slice without an
    error, the fetcher returns the nil record set with the error "cannot
    replace commas in data: data is empty", and the parser is not called. *)
Theorem X10_nil_buffer_is_a_fetch_error (config : Config) (c : Collaborators)
    (w : World) :
  source_read config c = (None, None) ->
  exists w' new,
    getParsedDataFromSource config c w
    = Ret (None, Some (DecorateError "cannot replace commas in data"
                         (errors_New "data is empty"))) w'
    /\ trace w' = trace w ++ new
    /\ count_events is_parse new = 0.
Proof.
  unfold source_read, getParsedDataFromSource, retrieve.
  destruct (IsReadCurrencyDataFromFile config); intros ->;
    eexists; eexists; run_go;
    (split; [reflexivity |]); split; reflexivity.
Qed.

Lemma X10_nil_buffer_is_a_fetch_error_witness :
  exists w' new,
    getParsedDataFromSource sample_config empty_handed World_New
    = Ret (None, Some "cannot replace commas in data: data is empty") w'
    /\ trace w' = trace World_New ++ new
    /\ count_events is_parse new = 0.
Proof.
  apply (X10_nil_buffer_is_a_fetch_error sample_config empty_handed World_New).
  reflexivity.
Defined.

(** ** More on the loop of [Run] *)

(** X11. A turn of the loop whose pointers are all non-nil runs the
    cycle, asks for the time to the next update, logs it, starts the server
    goroutine exactly when [GetIsRunning] is false, and ends by sleeping
    for the duration the collaborator handed back, also when that came with
    an error; the Read Cache is the one the cycle left. *)
Theorem X11_turn_after_the_cycle (config : Config) (c : Collaborators) (w : World) :
  hands_back_pointers c = true ->
  exists wc w' d new,
    fst (tc_GetTimeToNextUpdate c) = Some d
    /\ updateCurrencyDataInStorages config c w = Ret tt wc
    /\ Run_iteration config c w = Ret tt w'
    /\ memStorage w' = memStorage wc
    /\ trace w' = trace wc ++ new
    /\ last new = Some (EvSleep d)
    /\ count_events is_sleep new = 1
    /\ count_events is_server_start new = (if srv_GetIsRunning c then 0 else 1).
Proof.
  unfold hands_back_pointers. intros H. apply andb_prop in H as [Hcycle Hnext].
  apply bool_decide_eq_true in Hnext. destruct Hnext as [d Hd].
  destruct (cycle_returns config c w) as [wc Hwc].
  { destruct (stale c); now apply bool_decide_eq_true in Hcycle. }
  unfold Run_iteration.
  destruct (srv_GetIsRunning c) eqn:Hrunning.
  - exists wc. eexists. exists d. eexists.
    split; [exact Hd |]. split; [exact Hwc |].
    erewrite run_bind by exact Hwc. cbv beta.
    go_steps (@run_ret World unit). rewrite Hd. cbn [deref].
    go_steps (@run_ret World unit). cbn [negb].
    go_steps (@run_ret World unit). flatten_trace.
    split; [reflexivity |]. split; [reflexivity |]. split; [reflexivity |].
    change (EvGetTimeToNextUpdate :: ?t) with ([EvGetTimeToNextUpdate] ++ t).
    split; [| split; count_zero I].
    destruct (snd (tc_GetTimeToNextUpdate c)); reflexivity.
  - exists wc. eexists. exists d. eexists.
    split; [exact Hd |]. split; [exact Hwc |].
    erewrite run_bind by exact Hwc. cbv beta.
    go_steps (@run_ret World unit). rewrite Hd. cbn [deref].
    go_steps (@run_ret World unit). cbn [negb].
    go_steps (@run_ret World unit). flatten_trace.
    split; [reflexivity |]. split; [reflexivity |]. split; [reflexivity |].
    change (EvGetTimeToNextUpdate :: ?t) with ([EvGetTimeToNextUpdate] ++ t).
    split; [| split; count_zero I].
    destruct (snd (tc_GetTimeToNextUpdate c)); reflexivity.
Qed.

Lemma X11_turn_after_the_cycle_witness :
  exists wc w' d new,
    fst (tc_GetTimeToNextUpdate healthy) = Some d
    /\ updateCurrencyDataInStorages sample_config healthy World_New = Ret tt wc
    /\ Run_iteration sample_config healthy World_New = Ret tt w'
    /\ memStorage w' = memStorage wc
    /\ trace w' = trace wc ++ new
    /\ last new = Some (EvSleep d)
    /\ count_events is_sleep new = 1
    /\ count_events is_server_start new = (if srv_GetIsRunning healthy then 0 else 1).
Proof.
  apply (X11_turn_after_the_cycle sample_config healthy World_New).
  reflexivity.
Defined.

(** X12. When the cycle of a turn returns and [GetTimeToNextUpdate] hands
    back the nil duration pointer, the turn panics at line 86: the Read
    Cache is the one the cycle published, the server goroutine is not
    started and the loop does not sleep. *)
Theorem X12_nil_duration_panics_after_publish (config : Config) (c : Collaborators)
    (w wc : World) :
  updateCurrencyDataInStorages config c w = Ret tt wc ->
  fst (tc_GetTimeToNextUpdate c) = None ->
  exists w' new,
    Run_iteration config c w = Panic nil_dereference w'
    /\ memStorage w' = memStorage wc
    /\ trace w' = trace wc ++ new
    /\ count_events is_server_start new = 0
    /\ count_events is_sleep new = 0.
Proof.
  intros Hwc Hnext.
  unfold Run_iteration.
  erewrite run_bind by exact Hwc. cbv beta.
  go_steps (@run_ret World unit). rewrite Hnext. cbn [deref].
  go_steps (@run_ret World unit). unfold panic. flatten_trace.
  eexists. eexists. split; [reflexivity |]. split; [reflexivity |].
  split; [reflexivity |].
  change (EvGetTimeToNextUpdate :: ?t) with ([EvGetTimeToNextUpdate] ++ t).
  split; count_zero I.
Qed.

Lemma X12_nil_duration_panics_after_publish_witness :
  exists w' new,
    Run_iteration sample_config (unreachable_db (Some stamp_before) None) World_New
    = Panic nil_dereference w'
    /\ memStorage w' = {| updateDatetime := Some stamp_before; currencyStorage := None |}
    /\ trace w' = [EvConnect;
                   EvLog LError "cannot connect to db to do data update"
                     (Some "connection refused");
                   EvLog LInfo "checking latest update time..." None;
                   EvGetLatestUpdateDatetime;
                   EvLog LError "cannot get current update datetime" (Some "not connected");
                   EvIsNeedForUpdateDb (Some stamp_before);
                   EvGetLatestCurrencies 1;
                   EvLog LError "cannot get currencies from db" (Some "not connected");
                   EvLog LInfo "data is now up to date" None;
                   EvDisconnect;
                   EvLog LError "cannot disconnect from db to do data update"
                     (Some "not connected")]
                  ++ new
    /\ count_events is_server_start new = 0
    /\ count_events is_sleep new = 0.
Proof.
  eapply (X12_nil_duration_panics_after_publish sample_config
            (unreachable_db (Some stamp_before) None) World_New
            {| memStorage := {| updateDatetime := Some stamp_before;
                                currencyStorage := None |};
               trace := _ |}).
  - vm_compute. reflexivity.
  - reflexivity.
Defined.

(** ** [SaveCurrencyDataToFile] *)

(** X15. [SaveCurrencyDataToFile] always returns, having called the
    download once and then the file write once, with whatever buffer the
    download handed back, the nil one after a failure included; each error
    is logged after its call, and the line that the data was saved in the
    configured file is logged last, whether or not anything failed. *)
Theorem X15_save_writes_whatever_was_downloaded (config : Config) (c : Collaborators)
    (overwrite : goslice -> option error) :
  SaveCurrencyDataToFile config c overwrite []
  = Ret tt
      ([SvHttpGetCurrencyData]
       ++ match snd (hc_GetCurrencyData c) with
          | Some e => [SvLog LError "cannot get currencies from web" (Some e)]
          | None => []
          end
       ++ [SvOverwriteCurrencyDataFile (fst (hc_GetCurrencyData c))]
       ++ match overwrite (fst (hc_GetCurrencyData c)) with
          | Some e => [SvLog LError "cannot write currencies to file" (Some e)]
          | None => []
          end
       ++ [SvLog LInfo
             ("currency data saved in file: " ++ CurrencySourceFile config)%string None]).
Proof.
  unfold SaveCurrencyDataToFile, sv_record, bind, modify, ret.
  destruct (hc_GetCurrencyData c) as [data [e1 |]]; cbn [fst snd];
    destruct (overwrite data) as [e2 |]; reflexivity.
Qed.

(** ** More on the [/currencies.json] handler *)

(** X16. When the Read Cache holds a record set and both marshalling and
    the body write succeed, the handler returns with status 200 and a body
    that is exactly the marshalled records, after one [Marshal] of the
    cached records and one [Write] of its result. *)
Theorem X16_handler_serves_marshalled_cache (sv : HttpServer.Serving)
    (cs : CurrencyStorage) (data : goslice) :
  currencyStorage (HttpServer.cached sv) = Some cs ->
  HttpServer.json_Marshal sv (Currencies cs) = (data, None) ->
  HttpServer.conn_Write sv (default [] data) = None ->
  exists r,
    HttpServer.handler sv HttpServer.NewRequest = Ret tt r
    /\ HttpServer.status r = Some 200%Z
    /\ HttpServer.body (HttpServer.response r) = default [] data
    /\ HttpServer.calls r
       = [HttpServer.HHeaderSet "Content-Type" "application/json";
          HttpServer.HWriteHeader 200;
          HttpServer.HGetCurrencyStorage;
          HttpServer.HMarshal (Currencies cs);
          HttpServer.HWrite data].
Proof.
  intros Hcached Hmarshal Hwrite.
  eexists. run_handler. rewrite Hcached. cbv beta iota. rewrite Hmarshal.
  cbv beta iota. rewrite Hwrite. cbv beta iota.
  split; [reflexivity |]. split; [reflexivity |]. split; reflexivity.
Qed.

Lemma X16_handler_serves_marshalled_cache_witness :
  exists r,
    HttpServer.handler serving_update_1 HttpServer.NewRequest = Ret tt r
    /\ HttpServer.status r = Some 200%Z
    /\ HttpServer.body (HttpServer.response r) = default [] (Some [x5b; x5d])
    /\ HttpServer.calls r
       = [HttpServer.HHeaderSet "Content-Type" "application/json";
          HttpServer.HWriteHeader 200;
          HttpServer.HGetCurrencyStorage;
          HttpServer.HMarshal (Currencies stored_before);
          HttpServer.HWrite (Some [x5b; x5d])].
Proof.
  apply (X16_handler_serves_marshalled_cache serving_update_1 stored_before
           (Some [x5b; x5d])); reflexivity.
Defined.

(** As [run_handler], from a request that is already under way. *)
Ltac run_request :=
  cbv [HttpServer.getCurrencies HttpServer.w_Write
       HttpServer.record HttpServer.on_response
       HttpServer.Write
       HttpServer.response HttpServer.calls
       bind modify gets ret deref panic GetCurrencyStorage fst snd].

(** X17. When marshalling fails, [getCurrencies] returns the error behind
    "cannot marshall curencies to json" without calling [Write]: the
    response is as it was. *)
Theorem X17_marshal_error_writes_nothing (sv : HttpServer.Serving)
    (rq : HttpServer.Request) (cs : CurrencyStorage) (data : goslice) (e : error) :
  currencyStorage (HttpServer.cached sv) = Some cs ->
  HttpServer.json_Marshal sv (Currencies cs) = (data, Some e) ->
  exists rq',
    HttpServer.getCurrencies sv rq
    = Ret (Some (DecorateError "cannot marshall curencies to json" e)) rq'
    /\ HttpServer.response rq' = HttpServer.response rq
    /\ HttpServer.calls rq'
       = HttpServer.calls rq
         ++ [HttpServer.HGetCurrencyStorage; HttpServer.HMarshal (Currencies cs)].
Proof.
  intros Hcached Hmarshal.
  eexists. run_request. rewrite Hcached. cbv beta iota. rewrite Hmarshal.
  cbv beta iota.
  split; [reflexivity |]. split; [reflexivity |].
  rewrite <- app_assoc. reflexivity.
Qed.

Lemma X17_marshal_error_writes_nothing_witness :
  exists rq',
    HttpServer.getCurrencies serving_unmarshallable HttpServer.NewRequest
    = Ret (Some (DecorateError "cannot marshall curencies to json" "unsupported value")) rq'
    /\ HttpServer.response rq' = HttpServer.response HttpServer.NewRequest
    /\ HttpServer.calls rq'
       = HttpServer.calls HttpServer.NewRequest
         ++ [HttpServer.HGetCurrencyStorage;
             HttpServer.HMarshal (Currencies stored_before)].
Proof.
  apply (X17_marshal_error_writes_nothing serving_unmarshallable HttpServer.NewRequest
           stored_before None "unsupported value"); reflexivity.
Defined.

(** X18. When the body write fails, [getCurrencies] returns the error
    behind "cannot write data to http reponse", after one [Marshal] and one
    [Write]; the body has grown by what the failed write took, a prefix of
    the marshalled bytes. *)
Theorem X18_write_error_is_returned (sv : HttpServer.Serving)
    (rq : HttpServer.Request) (cs : CurrencyStorage) (data : goslice) (e : error) :
  currencyStorage (HttpServer.cached sv) = Some cs ->
  HttpServer.json_Marshal sv (Currencies cs) = (data, None) ->
  HttpServer.conn_Write sv (default [] data) = Some e ->
  exists rq' taken,
    HttpServer.getCurrencies sv rq
    = Ret (Some (DecorateError "cannot write data to http reponse" e)) rq'
    /\ HttpServer.body (HttpServer.response rq')
       = HttpServer.body (HttpServer.response rq) ++ take taken (default [] data)
    /\ HttpServer.calls rq'
       = HttpServer.calls rq
         ++ [HttpServer.HGetCurrencyStorage;
             HttpServer.HMarshal (Currencies cs);
             HttpServer.HWrite data].
Proof.
  intros Hcached Hmarshal Hwrite.
  eexists. exists (HttpServer.conn_Taken sv (default [] data)).
  run_request. rewrite Hcached. cbv beta iota. rewrite Hmarshal.
  cbv beta iota. rewrite Hwrite. cbv beta iota.
  split; [reflexivity |]. split.
  - destruct rq as [[h [st |] b] cl]; reflexivity.
  - rewrite <- !app_assoc. reflexivity.
Qed.

Lemma X18_write_error_is_returned_witness :
  exists rq' taken,
    HttpServer.getCurrencies serving_lost_connection HttpServer.NewRequest
    = Ret (Some (DecorateError "cannot write data to http reponse" "broken pipe")) rq'
    /\ HttpServer.body (HttpServer.response rq')
       = HttpServer.body (HttpServer.response HttpServer.NewRequest)
         ++ take taken (default [] (Some [x5b; x5d]))
    /\ HttpServer.calls rq'
       = HttpServer.calls HttpServer.NewRequest
         ++ [HttpServer.HGetCurrencyStorage;
             HttpServer.HMarshal (Currencies stored_before);
             HttpServer.HWrite (Some [x5b; x5d])].
Proof.
  apply (X18_write_error_is_returned serving_lost_connection HttpServer.NewRequest
           stored_before (Some [x5b; x5d]) "broken pipe"); reflexivity.
Defined.

(** X19. While the Read Cache holds the nil record set, as it does before
    the first cycle has published, the handler panics on the nil
    dereference at line 65, after its call of [WriteHeader(200)] and before
    anything is marshalled or written. *)
Theorem X19_nil_cache_panics_the_handler (sv : HttpServer.Serving) :
  currencyStorage (HttpServer.cached sv) = None ->
  exists r,
    HttpServer.handler sv HttpServer.NewRequest = Panic nil_dereference r
    /\ HttpServer.body (HttpServer.response r) = []
    /\ HttpServer.calls r
       = [HttpServer.HHeaderSet "Content-Type" "application/json";
          HttpServer.HWriteHeader 200;
          HttpServer.HGetCurrencyStorage].
Proof.
  intros Hcached.
  eexists. run_handler. rewrite Hcached. cbv beta iota.
  split; [reflexivity |]. split; reflexivity.
Qed.

Lemma X19_nil_cache_panics_the_handler_witness :
  exists r,
    HttpServer.handler serving_at_startup HttpServer.NewRequest = Panic nil_dereference r
    /\ HttpServer.body (HttpServer.response r) = []
    /\ HttpServer.calls r
       = [HttpServer.HHeaderSet "Content-Type" "application/json";
          HttpServer.HWriteHeader 200;
          HttpServer.HGetCurrencyStorage].
Proof.
  apply (X19_nil_cache_panics_the_handler serving_at_startup). reflexivity.
Defined.

(** ** The cycle and the handler together *)

(** X20. After a cycle that found the data stale, got a timestamp from
    [InsertUpdateDatetime] and whose fetch failed, the Read Cache holds the
    nil record set, and a request served from it panics in the handler
    whatever marshalling and the connection would do. *)
Theorem X20_failed_fetch_breaks_serving (config : Config) (c : Collaborators)
    (w : World) (u : UpdateDatetime) (p : option CurrencyStorage) (e : error)
    (marshal : list Currency -> goslice * option error)
    (write : list byte -> option error) (taken : list byte -> nat) :
  stale c = true ->
  fst (db_InsertUpdateDatetime c (time_Now c)) = Some u ->
  fetched config c = Some (p, Some e) ->
  exists w' r,
    updateCurrencyDataInStorages config c w = Ret tt w'
    /\ GetCurrencyStorage (memStorage w') = None
    /\ HttpServer.handler
         {| HttpServer.cached := memStorage w';
            HttpServer.json_Marshal := marshal;
            HttpServer.conn_Write := write;
            HttpServer.conn_Taken := taken |} HttpServer.NewRequest
       = Panic nil_dereference r.
Proof.
  intros Hstale Hins Hfetch.
  destruct (cycle_stale_run config c u Hstale Hins)
    as (parsed & fnew & Hfetched & Hnil & _ & Hcycle).
  rewrite Hfetch in Hfetched. injection Hfetched as <-.
  assert (Hp : p = None) by (apply Hnil; discriminate).
  eexists. eexists. split; [apply Hcycle |].
  run_handler. cbn [HttpServer.cached memStorage currencyStorage fst]. rewrite Hp.
  split; reflexivity.
Qed.

Lemma X20_failed_fetch_breaks_serving_witness :
  exists w' r,
    updateCurrencyDataInStorages sample_config failing_fetch serving_before = Ret tt w'
    /\ GetCurrencyStorage (memStorage w') = None
    /\ HttpServer.handler
         {| HttpServer.cached := memStorage w';
            HttpServer.json_Marshal := fun _ => (Some [x5b; x5d], None);
            HttpServer.conn_Write := fun _ => None;
            HttpServer.conn_Taken := fun _ => 0 |} HttpServer.NewRequest
       = Panic nil_dereference r.
Proof.
  apply (X20_failed_fetch_breaks_serving sample_config failing_fetch serving_before
           stamp_after None "cannot get curencies from web: connection refused");
    reflexivity.
Defined.

(** ** The listener *)

(** X21. [Run] on a server logs the address it starts at and raises the
    flag before it listens, whatever the flag was. When the listener comes
    back with an error, the flag is lowered again and [Run] returns that
    error behind "cannot run http listener"; when it comes back without
    one, [Run] returns nil and the flag stays raised. *)
Theorem X21_listener_flag (s : Listener.Server) (served : option error) :
  exists s',
    Listener.Run served s = Ret (DecorateError "cannot run http listener" <$> served) s'
    /\ Listener.GetIsRunning s' = match served with Some _ => false | None => true end
    /\ Listener.listens s' = Listener.listens s ++ [true]
    /\ Listener.log s'
       = Listener.log s ++ [("http server has started at address " ++ Listener.Addr s)%string]
    /\ Listener.Addr s' = Listener.Addr s.
Proof.
  destruct served as [e |]; eexists;
    (split; [reflexivity |]); (split; [reflexivity |]);
    (split; [reflexivity |]); split; reflexivity.
Qed.

(** ** More on readers beside the publish step *)

Lemma timestamps_read_app (o1 o2 : list FieldRead) :
  timestamps_read (o1 ++ o2) = timestamps_read o1 ++ timestamps_read o2.
Proof.
  induction o1 as [| [v | v] o1 IH]; simpl; [reflexivity | now rewrite IH | exact IH].
Qed.

Lemma records_read_app (o1 o2 : list FieldRead) :
  records_read (o1 ++ o2) = records_read o1 ++ records_read o2.
Proof.
  induction o1 as [| [v | v] o1 IH]; simpl; [reflexivity | exact IH | now rewrite IH].
Qed.

Lemma publish_phases_step m u s i i' :
  publish_phases m u s i -> step i i' -> publish_phases m u s i'.
Proof.
  intros (a & b & c & d & Hts & Hrs & Hstate) Hstep.
  destruct Hstep as [c0 op rest obs | c0 ops obs | c0 ops obs];
    cbn [observed pending cache] in *.
  - exists a, b, c, d. cbn [observed pending cache].
    split; [exact Hts |]. split; [exact Hrs |].
    destruct Hstate as [(Hp & Hc & Hb & Hd) | [(Hp & Hc & Hd) | (Hp & Hc)]];
      unfold publish in Hp.
    + inversion Hp; subst. right. left. repeat split; reflexivity.
    + inversion Hp; subst. right. right. split; reflexivity.
    + discriminate.
  - assert (Hts' : timestamps_read (obs ++ [ReadUpdateDatetime (GetUpdateDatetime c0)])
                   = timestamps_read obs ++ [GetUpdateDatetime c0])
      by (rewrite timestamps_read_app; reflexivity).
    assert (Hrs' : records_read (obs ++ [ReadUpdateDatetime (GetUpdateDatetime c0)])
                   = records_read obs)
      by (rewrite records_read_app; simpl; apply app_nil_r).
    destruct Hstate as [(Hp & Hc & Hb & Hd) | [(Hp & Hc & Hd) | (Hp & Hc)]]; subst.
    + exists (S a), 0, c, 0. cbn [observed pending cache]. rewrite Hts', Hrs', Hts.
      split; [| split; [exact Hrs | left; repeat split; reflexivity]].
      change (replicate 0 ?x) with (@nil (option UpdateDatetime)).
      rewrite !app_nil_r. now rewrite replicate_S_end.
    + exists a, (S b), c, 0. cbn [observed pending cache]. rewrite Hts', Hrs', Hts.
      split; [| split; [exact Hrs | right; left; repeat split; reflexivity]].
      rewrite replicate_S_end, app_assoc. reflexivity.
    + exists a, (S b), c, d. cbn [observed pending cache]. rewrite Hts', Hrs', Hts.
      split; [| split; [exact Hrs | right; right; split; reflexivity]].
      rewrite replicate_S_end, app_assoc. reflexivity.
  - assert (Hts' : timestamps_read (obs ++ [ReadCurrencyStorage (GetCurrencyStorage c0)])
                   = timestamps_read obs)
      by (rewrite timestamps_read_app; simpl; apply app_nil_r).
    assert (Hrs' : records_read (obs ++ [ReadCurrencyStorage (GetCurrencyStorage c0)])
                   = records_read obs ++ [GetCurrencyStorage c0])
      by (rewrite records_read_app; reflexivity).
    destruct Hstate as [(Hp & Hc & Hb & Hd) | [(Hp & Hc & Hd) | (Hp & Hc)]]; subst.
    + exists a, 0, (S c), 0. cbn [observed pending cache]. rewrite Hts', Hrs', Hrs.
      split; [exact Hts |]. split; [| left; repeat split; reflexivity].
      change (replicate 0 ?x) with (@nil (option CurrencyStorage)).
      rewrite !app_nil_r. now rewrite replicate_S_end.
    + exists a, b, (S c), 0. cbn [observed pending cache]. rewrite Hts', Hrs', Hrs.
      split; [exact Hts |]. split; [| right; left; repeat split; reflexivity].
      change (replicate 0 ?x) with (@nil (option CurrencyStorage)).
      rewrite !app_nil_r. now rewrite replicate_S_end.
    + exists a, b, c, (S d). cbn [observed pending cache]. rewrite Hts', Hrs', Hrs.
      split; [exact Hts |]. split; [| right; right; split; reflexivity].
      rewrite replicate_S_end, app_assoc. reflexivity.
Qed.

Lemma publish_phases_reachable m u s i :
  rtc step (publishing m u s) i -> publish_phases m u s i.
Proof.
  intros Hreach.
  apply (rtc_ind_r (R := step) (publish_phases m u s) (publishing m u s));
    [| | exact Hreach].
  - exists 0, 0, 0, 0. split; [reflexivity |]. split; [reflexivity |].
    left. repeat split; reflexivity.
  - intros y z _ Hstep IH. exact (publish_phases_step m u s y z IH Hstep).
Qed.

(** X22. Once both stores of a publish step are done, the Read Cache
    holds exactly the new timestamp and the new records, however readers
    were interleaved with it. *)
Theorem X22_publish_completes (m : MemStorage) (u : option UpdateDatetime)
    (s : option CurrencyStorage) (i : Interleaving) :
  rtc step (publishing m u s) i ->
  pending i = [] ->
  Get (cache i) = (u, s).
Proof.
  intros Hreach Hdone.
  destruct (publish_invariant_reachable m u s i Hreach) as [Hstate _].
  destruct Hstate as [(Hp & _) | [(Hp & _) | (_ & Hc)]].
  - rewrite Hp in Hdone. discriminate.
  - rewrite Hp in Hdone. discriminate.
  - rewrite Hc. reflexivity.
Qed.

Lemma published_reachable :
  rtc step (publishing (memStorage serving_before) (Some stamp_after) (Some stored_after))
      published.
Proof.
  eapply rtc_l; [apply step_store |].
  eapply rtc_l; [apply step_get_records |].
  eapply rtc_l; [apply step_store |].
  eapply rtc_l; [apply step_get_records |].
  apply rtc_refl.
Defined.

Lemma X22_publish_completes_witness :
  Get (cache published) = (Some stamp_after, Some stored_after).
Proof.
  apply (X22_publish_completes (memStorage serving_before) (Some stamp_after)
           (Some stored_after) published).
  - exact published_reachable.
  - reflexivity.
Defined.

(** X23. No field goes back during a publish step: of the reads made
    beside it, in the order they were made, those of the records return the
    previous records some times and from then on the new ones, and those of
    the timestamp the previous timestamp some times and from then on the
    new one. *)
Theorem X23_reads_are_monotone (m : MemStorage) (u : option UpdateDatetime)
    (s : option CurrencyStorage) (i : Interleaving) :
  rtc step (publishing m u s) i ->
  exists a b c d,
    timestamps_read (observed i) = replicate a (updateDatetime m) ++ replicate b u
    /\ records_read (observed i) = replicate c (currencyStorage m) ++ replicate d s.
Proof.
  intros Hreach.
  destruct (publish_phases_reachable m u s i Hreach) as (a & b & c & d & Hts & Hrs & _).
  exists a, b, c, d. split; assumption.
Qed.

Lemma X23_reads_are_monotone_witness :
  exists a b c d,
    timestamps_read (observed published)
    = replicate a (updateDatetime (memStorage serving_before))
      ++ replicate b (Some stamp_after)
    /\ records_read (observed published)
       = replicate c (currencyStorage (memStorage serving_before))
         ++ replicate d (Some stored_after).
Proof.
  apply (X23_reads_are_monotone (memStorage serving_before) (Some stamp_after)
           (Some stored_after) published).
  exact published_reachable.
Defined.

(** ** A cycle from end to end *)

Lemma fetched_of_buffer (config : Config) (c : Collaborators) (l : list byte)
    (p : option CurrencyStorage) :
  source_read config c = (Some l, None) ->
  xml_Parse c (Some (take START_DATA_INDEX l ++ (comma_to_dot <$> drop START_DATA_INDEX l)))
  = (p, None) ->
  fetched config c = Some (p, None).
Proof.
  intros Hsrc Hparse.
  pose proof (replaceCommasWithDots_closed l) as Hrep.
  unfold source_read in Hsrc.
  unfold fetched, getParsedDataFromSource, retrieve.
  destruct (IsReadCurrencyDataFromFile config); rewrite Hsrc;
    cbv [bind call emit modify ret fastlog_Info fastlog_Debug lift_exec];
    cbn [fst snd]; rewrite Hrep; cbv beta iota; cbn [fst snd];
    rewrite Hparse; reflexivity.
Qed.

(** X24. A cycle in which everything works: the data is stale, the
    selected retrieval hands back a buffer, the parser accepts the repaired
    buffer and [InsertUpdateDatetime] hands back a timestamp. The cycle
    returns, [InsertCurrencies] has been called with the parsed records
    and the identifier of the new timestamp, and the Read Cache holds the
    new timestamp with the parsed records. *)
Theorem X24_successful_refresh (config : Config) (c : Collaborators) (w : World)
    (l : list byte) (p : option CurrencyStorage) (u : UpdateDatetime) :
  stale c = true ->
  source_read config c = (Some l, None) ->
  xml_Parse c (Some (take START_DATA_INDEX l ++ (comma_to_dot <$> drop START_DATA_INDEX l)))
  = (p, None) ->
  fst (db_InsertUpdateDatetime c (time_Now c)) = Some u ->
  exists w' new,
    updateCurrencyDataInStorages config c w = Ret tt w'
    /\ Get (memStorage w') = (Some u, p)
    /\ trace w' = trace w ++ new
    /\ In (EvInsertCurrencies p (Id u)) new
    /\ count_events is_durable_insert new = 2.
Proof.
  intros Hstale Hsrc Hparse Hins.
  destruct (cycle_stale_run config c u Hstale Hins)
    as (parsed & fnew & Hfetched & _ & Hcount & Hcycle).
  rewrite (fetched_of_buffer config c l p Hsrc Hparse) in Hfetched.
  injection Hfetched as <-. cbn [fst snd] in Hcycle.
  eexists. eexists. split; [apply Hcycle |].
  split; [reflexivity |]. split; [reflexivity |]. split.
  - apply in_or_app. right. apply in_or_app. left.
    apply in_or_app. right. apply in_or_app. right. apply in_or_app. right.
    apply in_or_app. right. apply in_or_app. right. apply in_or_app. left.
    left. reflexivity.
  - unfold cycle_head, cycle_tail, cycle_deferred.
    rewrite !count_events_app, !count_inserts_error_line, Hcount. reflexivity.
Qed.

Lemma X24_successful_refresh_witness :
  exists w' new,
    updateCurrencyDataInStorages sample_config healthy serving_before = Ret tt w'
    /\ Get (memStorage w') = (Some stamp_after, Some stored_before)
    /\ trace w' = trace serving_before ++ new
    /\ In (EvInsertCurrencies (Some stored_before) (Id stamp_after)) new
    /\ count_events is_durable_insert new = 2.
Proof.
  apply (X24_successful_refresh sample_config healthy serving_before
           (replicate 104 CHAR_COMMA) (Some stored_before) stamp_after);
    reflexivity.
Defined.
